(* ===== verification/_CoqProject ===== *)
-Q . S2P
Prelude.v
LinkRegex.v
LinkClassifier.v
IdentifierSet.v
PyJson.v
Entities.v
MetadataResolver.v
SimilarFinder.v
OutputAssembler.v
Pipeline.v
Lifecycle.v
