(* ===== verification/Prelude.v ===== *)
(** * A verification of yt-playlist-len-calc: the [ItemList] orchestrator

    ** The program

    [src/src/itemlist.py] defines one class, [ItemList].  Its constructor
    ([__init__], lines 13-27) stores the raw input text and the optional
    configuration (range window, speed, API key) and immediately splits the
    text into playlist ids and video ids ([get_item_ids], lines 136-150),
    classifying each line with [get_id] (lines 70-84), a first-match search
    over four Python regular expressions.  [do_async_work] (lines 29-32) then
    awaits three phases in order: [populate_playlist_names] (lines 86-123)
    replaces the id strings by [Playlist] entities built from one batched API
    call, [populate_video_names] (lines 125-134) does the same for videos,
    and [fetch_similar_playlists] (lines 35-44, with
    [call_similar_playlists_api], lines 47-67) searches playlists similar to
    each resolved one.  [get_output_string] (lines 152-172) assembles the
    report.  The entity classes [Playlist] and [Video], [call_youtube_api],
    [find_time_slice] and the HTTP client are imported from modules that are
    not in the sources: they are the external collaborators of the spec.

    ** Files, in dependency order

    - [Prelude] (this file): the result type, the state-and-exception monad
      [PyM] that models Python's sequential [async]/[await] code with
      exceptions ([ret], [bind], [raise], [try_except], with the notation
      [let* x := m in k] of [py_scope]), graded frames of computations
      (the class [Graded] and [within], composed along [bind] and
      [try_except] by the hints of the database [itemlist]) and the shared
      list lemmas.
    - [LinkRegex]: the subset of Python's [re] module the program uses:
      the classes [\w] and [\S] and bracket unions with Python's Unicode
      semantics on code points U+0000..U+00FF, a backtracking matcher
      [mrun] in continuation-passing style with greedy repetition
      ([try_down]), optional groups, numbered captures and the [$] anchor
      ([re.match], [match.group]), and [str.strip].
    - [LinkClassifier]: [get_id] with its four patterns, run by that
      matcher; a direct scanner [classify]; the theorem that both agree on
      every line (C1), and the classification properties (C2-C7).
    - [IdentifierSet] (on stdpp): [str.split("\n")], [dict.fromkeys] as an
      insertion-ordered key list, [get_item_ids]; deduplication, membership
      and order (C8-C11).
    - [PyJson]: the decoded JSON values and Python's subscripting, [len],
      iteration and [dict.get] on them with their exceptions, and [str] /
      [repr] of values used in f-strings.
    - [Entities]: the [ItemList] record (the attributes), the elements of
      the id lists ([pyobj]: a string, a [Playlist] or a [Video]), the
      collaborators as the classes [EntityKinds] and [Backend] (the theorems
      hold for every instance), the method state [St] (object, world, the
      [logging.error] log, the trace of external calls in issue order), the
      actions, their frame ([frame k]: object untouched, at most [k] calls),
      and a scripted backend (a queue of network answers) on which the
      witnesses run.
    - [MetadataResolver]: [populate_playlist_names] (batched call,
      zero-items early return, the [KeyError] handler with its three log
      lines, [zip], first-entity range rule, awaited [do_async_work]) and
      [populate_video_names] (C12-C17, C32), with the frame of each phase
      on every outcome.
    - [SimilarFinder]: [call_similar_playlists_api] and
      [fetch_similar_playlists]; the spec's design (a fold whose step
      catches its own failure) stated as [fetch_fold] and refined by the
      code (C18-C20).
    - [OutputAssembler]: [get_output_string] (C21-C22).
    - [Pipeline]: [__init__] and [do_async_work] composed from the phases;
      the ids stored by the constructor, the completion of the run when the
      first two phases succeed, the errors that end the run, the report
      before and after the run, and the bound on the number of external
      calls (C23-C28, C31).
    - [Lifecycle]: [do_async_work] as a step relation on (phase, state)
      configurations, one step per await, of which every run of
      [do_async_work] is a chain; the invariant of the id lists in every
      phase by induction on the steps, and the report of a completed run
      (C29-C30).

    ** What the theorems show

    Equivalence: the regex semantics of [get_id] equals a linear scanner,
    and [dict.fromkeys] equals first-occurrence deduplication.  Functional
    behaviour of every phase on each branch, errors included, as equations
    on the final state (object, log and trace).  Refinement: the similarity
    loop implements the spec's isolated fold on resolved playlists.
    Safety: after a successful playlist phase the similarity phase cannot
    raise, and the report of a completed run cannot raise.  Invariant: by
    rule induction on the steps, no phase leaves a partly resolved list.
    Bounds: a run issues at most [2 + 2n] external calls for [n] requested
    playlists, and the playlist phase keeps min(ids, items) entities.
    Findings are recorded with theorems: the last marker occurrence
    wins, an unmarked URL is a playlist id, [zip] misaligns entities when
    the API omits an item, the video phase has no handler, the isolation of
    the similarity loop depends on resolved playlists, and the no-results
    report is a nested list.

    ** Characters and bounds

    Python strings are sequences of Unicode code points; the model uses Rocq
    [string]s, whose characters are read as the code points U+0000..U+00FF
    (Latin-1).  Characters above U+00FF are not modelled.  Integers of the
    JSON values are unbounded [Z], as Python's are.  No fuel is used: every
    recursion is structural (the regex matcher on the pattern, the greedy
    repetition on the length of the maximal run, the loops on their lists),
    so every function of the model is total.

    ** Not modelled

    The internals of [Playlist], [Video], [call_youtube_api] and
    [find_time_slice] (absent from the sources; abstracted by [Backend]),
    the event loop (every [await] runs to completion before the next
    statement, so the methods are sequential), the text of [logging]'s
    output (the log records the values passed to [logging.error]). *)

From Stdlib Require Import String Ascii List Bool Arith Lia.
Import ListNotations.

Declare Scope py_scope.
Delimit Scope py_scope with py.

Create HintDb itemlist discriminated.
Create Rewrite HintDb itemlist_rw.

(** ** Results and the state-and-exception monad *)

Inductive result (A E : Type) : Type :=
| Ok (a : A)
| Err (e : E).
Arguments Ok {A E} a.
Arguments Err {A E} e.

(** A Python method body run on a state [S] (the object, the external world,
    the log): it returns the new state and either a value or a raised
    exception.  Mutations made before an exception persist, as in Python. *)
Definition PyM (S E A : Type) : Type := S -> S * result A E.

Section Monad.
Context {S E : Type}.

Definition ret {A} (a : A) : PyM S E A := fun s => (s, Ok a).

Definition bind {A B} (m : PyM S E A) (f : A -> PyM S E B) : PyM S E B :=
  fun s =>
    match m s with
    | (s', Ok a) => f a s'
    | (s', Err e) => (s', Err e)
    end.

Definition raise {A} (e : E) : PyM S E A := fun s => (s, Err e).

Definition gets {A} (f : S -> A) : PyM S E A := fun s => (s, Ok (f s)).

Definition modify (f : S -> S) : PyM S E unit := fun s => (f s, Ok tt).

(** [try: m except: h]: the handler runs on the state reached when [m]
    raised. *)
Definition try_except {A} (m : PyM S E A) (h : E -> PyM S E A) : PyM S E A :=
  fun s =>
    match m s with
    | (s', Err e) => h e s'
    | r => r
    end.

(** [for x in l: body(x)]. *)
Fixpoint for_each {A} (l : list A) (body : A -> PyM S E unit) : PyM S E unit :=
  match l with
  | [] => ret tt
  | x :: l' => bind (body x) (fun _ => for_each l' body)
  end.

Lemma bind_ret_l {A B} (a : A) (f : A -> PyM S E B) s :
  bind (ret a) f s = f a s.
Proof. reflexivity. Qed.

Lemma bind_raise {A B} (e : E) (f : A -> PyM S E B) s :
  bind (raise e) f s = (s, Err e).
Proof. reflexivity. Qed.

Lemma bind_assoc {A B C} (m : PyM S E A) (f : A -> PyM S E B)
      (g : B -> PyM S E C) s :
  bind (bind m f) g s = bind m (fun a => bind (f a) g) s.
Proof. unfold bind. destruct (m s) as [s' [a|e]]; reflexivity. Qed.

Lemma bind_ok {A B} (m : PyM S E A) (f : A -> PyM S E B) s s' a :
  m s = (s', Ok a) -> bind m f s = f a s'.
Proof. intros H. unfold bind. now rewrite H. Qed.

Lemma bind_err {A B} (m : PyM S E A) (f : A -> PyM S E B) s s' e :
  m s = (s', Err e) -> bind m f s = (s', Err e).
Proof. intros H. unfold bind. now rewrite H. Qed.

Lemma bind_ext {A B} (m : PyM S E A) (f g : A -> PyM S E B) s :
  (forall a s', f a s' = g a s') -> bind m f s = bind m g s.
Proof. intros H. unfold bind. destruct (m s) as [s' [a|e]]; auto. Qed.

Lemma bind_congr {A B} (m1 m2 : PyM S E A) (f : A -> PyM S E B) s :
  m1 s = m2 s -> bind m1 f s = bind m2 f s.
Proof. intros H. unfold bind. now rewrite H. Qed.

Lemma for_each_app {A} (l1 l2 : list A) body s :
  for_each (l1 ++ l2) body s = bind (for_each l1 body) (fun _ => for_each l2 body) s.
Proof.
  revert s. induction l1 as [|x l1 IH]; intros s; simpl.
  - reflexivity.
  - rewrite bind_assoc. apply bind_ext. intros _ s'. apply IH.
Qed.
End Monad.

#[export] Hint Rewrite @bind_ret_l @bind_raise @bind_assoc : itemlist_rw.

Notation "'let*' x ':=' m 'in' k" := (bind m (fun x => k))
  (at level 10, x name, m at level 100, k at level 200) : py_scope.

(** ** Graded frames of computations

    A graded relation [R k s s'] says what a computation may do to the state
    when it "costs" at most [k] (for instance: issues at most [k] external
    calls and leaves the object alone).  [within R k m] holds when every run
    of [m], whatever its outcome, stays in [R k]; the lemmas below compose
    it along [bind] and [try_except], so that the frame of a loop follows
    from the frame of its body. *)

Class Graded {S : Type} (R : nat -> S -> S -> Prop) : Prop := {
  graded_refl : forall s, R 0 s s;
  graded_trans : forall k j s1 s2 s3, R k s1 s2 -> R j s2 s3 -> R (k + j) s1 s3;
  graded_mono : forall k k' s s', k <= k' -> R k s s' -> R k' s s'
}.

Section Within.
Context {S E : Type} (R : nat -> S -> S -> Prop) `{!Graded R}.

(** An inductive wrapper, so that [intros] and [auto] do not unfold it. *)
Inductive within {A} (k : nat) (m : PyM S E A) : Prop :=
| within_intro : (forall s, R k s (fst (m s))) -> within k m.

Lemma within_run {A} k (m : PyM S E A) s : within k m -> R k s (fst (m s)).
Proof. intros [H]. apply H. Qed.

Lemma within_ret {A} (a : A) : within 0 (ret a).
Proof. constructor. intros s. apply graded_refl. Qed.

Lemma within_raise {A} (e : E) : within 0 (raise (A := A) e).
Proof. constructor. intros s. apply graded_refl. Qed.

Lemma within_bind {A B} k j (m : PyM S E A) (f : A -> PyM S E B) :
  within k m -> (forall a, within j (f a)) -> within (k + j) (bind m f).
Proof.
  intros [Hm] Hf. constructor. intros s. specialize (Hm s). unfold bind.
  destruct (m s) as [s1 [a|e]]; simpl in *.
  - eapply graded_trans; [exact Hm | apply within_run, Hf].
  - eapply graded_mono; [|exact Hm]. apply Nat.le_add_r.
Qed.

Lemma within_try {A} k j (m : PyM S E A) (h : E -> PyM S E A) :
  within k m -> (forall e, within j (h e)) -> within (k + j) (try_except m h).
Proof.
  intros [Hm] Hh. constructor. intros s. specialize (Hm s). unfold try_except.
  destruct (m s) as [s1 [a|e]]; simpl in *.
  - eapply graded_mono; [|exact Hm]. apply Nat.le_add_r.
  - eapply graded_trans; [exact Hm | apply within_run, Hh].
Qed.

Lemma within_mono {A} k k' (m : PyM S E A) : k <= k' -> within k m -> within k' m.
Proof. intros Hk [Hm]. constructor. intros s. eapply graded_mono; [exact Hk | apply Hm]. Qed.
End Within.

#[export] Hint Resolve within_ret within_raise within_bind within_try : itemlist.

(** ** Shared list lemmas *)

Lemma skipn_nth_error {A} (l : list A) i :
  match skipn i l with
  | [] => nth_error l i = None
  | x :: _ => nth_error l i = Some x
  end.
Proof.
  revert l; induction i as [|i IH]; intros [|y l]; simpl; auto.
  apply IH.
Qed.

Lemma skipn_S_cons {A} (l : list A) i x rest :
  skipn i l = x :: rest -> skipn (S i) l = rest.
Proof.
  revert l; induction i as [|i IH]; intros [|y l] H; simpl in *;
    try discriminate; [congruence | now apply IH].
Qed.

Lemma skipn_skipn' {A} (l : list A) i j : skipn j (skipn i l) = skipn (i + j) l.
Proof. rewrite skipn_skipn, Nat.add_comm. reflexivity. Qed.

#[export] Hint Resolve skipn_S_cons : itemlist.

(** ** Tactics *)

(** Case on every [if] and [match] on a boolean or option test in the goal,
    keeping the equation. *)
Ltac case_tests :=
  repeat match goal with
  | |- context [if ?b then _ else _] =>
      lazymatch b with
      | context [if _ then _ else _] => fail
      | _ => let E := fresh "E" in destruct b eqn:E
      end
  end.
