(* ===== verification/LinkRegex.v ===== *)
(** * The subset of Python's [re] module and [str] methods used by [get_id]

    [get_id] ([src/src/itemlist.py], lines 70-84) calls [str.strip] and
    [re.match] with four patterns built from: the anchors [^] and [$], the
    classes [\S] and [\w] and the bracket union [[\w_-]], literal text, the
    greedy quantifiers [+] and [*] on a character class, numbered capture
    groups and a greedy optional group [( )?].  This file gives the syntax of
    that subset ([regex]), Python's backtracking semantics for it ([mrun]:
    continuation-passing, first success wins, greedy repetition tries the
    longest run first), [re.match] and [match.group], and [str.strip], with the
    lemmas that compute [mrun] on the building blocks of the patterns. *)

From Stdlib Require Import String Ascii List Bool Arith NArith Lia.
From S2P Require Import Prelude.
Import ListNotations.

Local Open Scope N_scope.

(** ** Character predicates

    Python's [re] on a [str] pattern uses Unicode semantics: [\s] (hence
    [\S]) is [Py_UNICODE_ISSPACE], [\w] is [Py_UNICODE_ISALNUM] or ['_'].
    [str.strip()] removes [Py_UNICODE_ISSPACE] characters.  On the code
    points U+0000..U+00FF these are the following sets. *)

Definition py_isspace (c : ascii) : bool :=
  let n := N_of_ascii c in
  ((9 <=? n) && (n <=? 13)) || ((28 <=? n) && (n <=? 32))
  || (n =? 133) || (n =? 160).

Definition py_isword (c : ascii) : bool :=
  let n := N_of_ascii c in
  ((48 <=? n) && (n <=? 57)) || ((65 <=? n) && (n <=? 90)) || (n =? 95)
  || ((97 <=? n) && (n <=? 122))
  || (n =? 170) || (n =? 178) || (n =? 179) || (n =? 181) || (n =? 185)
  || (n =? 186) || ((188 <=? n) && (n <=? 190)) || ((192 <=? n) && (n <=? 214))
  || ((216 <=? n) && (n <=? 246)) || (248 <=? n).

Local Close Scope N_scope.

(** ** Syntax *)

Inductive charclass : Type :=
| CWord                              (** [\w] *)
| CNonSpace                          (** [\S] *)
| CChar (c : ascii)                  (** a literal character in brackets *)
| CUnion (k1 k2 : charclass).        (** [[k1k2]] *)

Fixpoint class_mem (k : charclass) (c : ascii) : bool :=
  match k with
  | CWord => py_isword c
  | CNonSpace => negb (py_isspace c)
  | CChar d => if ascii_dec c d then true else false
  | CUnion k1 k2 => class_mem k1 c || class_mem k2 c
  end.

Inductive regex : Type :=
| RBol                               (** [^] *)
| REol                               (** [$] *)
| RLits (m : string)                 (** literal text *)
| RSeq (r1 r2 : regex)               (** [r1r2] *)
| RGroup (n : nat) (r : regex)       (** capture group number [n] *)
| ROpt (r : regex)                   (** greedy [r?] *)
| RRep (k : charclass) (least : nat).  (** greedy [k{least,}]: [k*], [k+] *)

(** Capture spans, most recent first: group [n] spans [s[b:e]]. *)
Definition captures : Type := list (nat * (nat * nat)).

Fixpoint cap_lookup (n : nat) (cs : captures) : option (nat * nat) :=
  match cs with
  | [] => None
  | (m, sp) :: cs' => if Nat.eqb n m then Some sp else cap_lookup n cs'
  end.

(** ** Semantics *)

(** Length of the longest prefix of [l] in class [k]. *)
Fixpoint run_len (k : charclass) (l : list ascii) : nat :=
  match l with
  | [] => 0
  | c :: l' => if class_mem k c then S (run_len k l') else 0
  end.

(** Try [f n], [f (n-1)], ..., [f least]; the first success wins.  This is
    how SRE's [REPEAT_ONE] backtracks a greedy repetition of one class. *)
Fixpoint try_down {A} (f : nat -> option A) (n least : nat) : option A :=
  if n <? least then None
  else match f n with
       | Some a => Some a
       | None => match n with 0 => None | S n' => try_down f n' least end
       end.

Fixpoint prefixb (m : list ascii) (l : list ascii) : bool :=
  match m, l with
  | [], _ => true
  | a :: m', b :: l' => if ascii_dec a b then prefixb m' l' else false
  | _ :: _, [] => false
  end.

(** [$] without [MULTILINE]: the end, or just before a final newline. *)
Definition at_eol (s : list ascii) (i : nat) : bool :=
  Nat.eqb i (length s)
  || (Nat.eqb (S i) (length s)
      && match nth_error s i with Some c => if ascii_dec c "010" then true else false
                                | None => false end).

Definition cont : Type := nat -> captures -> option captures.

Fixpoint mrun (r : regex) (s : list ascii) (i : nat) (cs : captures) (k : cont)
  : option captures :=
  match r with
  | RBol => if Nat.eqb i 0 then k i cs else None
  | REol => if at_eol s i then k i cs else None
  | RLits m =>
      let ml := list_ascii_of_string m in
      if prefixb ml (skipn i s) then k (i + length ml) cs else None
  | RSeq r1 r2 => mrun r1 s i cs (fun i' cs' => mrun r2 s i' cs' k)
  | RGroup n r => mrun r s i cs (fun i' cs' => k i' ((n, (i, i')) :: cs'))
  | ROpt r =>
      match mrun r s i cs k with
      | Some cs' => Some cs'
      | None => k i cs
      end
  | RRep cl least => try_down (fun j => k (i + j) cs) (run_len cl (skipn i s)) least
  end.

Definition accept : cont := fun _ cs => Some cs.

(** [re.match(pattern, string)]: anchored at position 0, no end anchor. *)
Definition re_match (p : regex) (s : string) : option captures :=
  mrun p (list_ascii_of_string s) 0 [] accept.

(** [match.group(n)]; [None] when the group did not participate. *)
Definition match_group (s : string) (cs : captures) (n : nat) : option string :=
  match cap_lookup n cs with
  | Some (b, e) =>
      Some (string_of_list_ascii (firstn (e - b) (skipn b (list_ascii_of_string s))))
  | None => None
  end.

(** [str.strip()]. *)
Fixpoint lstrip_l (l : list ascii) : list ascii :=
  match l with
  | [] => []
  | c :: l' => if py_isspace c then lstrip_l l' else l
  end.

Definition strip_l (l : list ascii) : list ascii := rev (lstrip_l (rev (lstrip_l l))).

Definition py_strip (s : string) : string :=
  string_of_list_ascii (strip_l (list_ascii_of_string s)).

(** ** Descending search *)

(** The largest [p] with [1 <= p <= n] and [P p]: the position a greedy
    [.+M] prefix settles on. *)
Fixpoint find_last (P : nat -> bool) (n : nat) : option nat :=
  match n with
  | 0 => None
  | S n' => if P (S n') then Some (S n') else find_last P n'
  end.

Section TryDown.
Context {A : Type}.

Lemma try_down_top (f : nat -> option A) n least :
  (forall j, j < n -> f j = None) ->
  try_down f n least = if n <? least then None else f n.
Proof.
  induction n as [|n IH]; intros H; simpl.
  - destruct (0 <? least); [reflexivity|]. now destruct (f 0).
  - destruct (S n <? least) eqn:E; [reflexivity|].
    destruct (f (S n)); [reflexivity|].
    rewrite IH by (intros; apply H; lia).
    rewrite (H n) by lia. now destruct (n <? least).
Qed.

Lemma try_down_ext (f g : nat -> option A) n least :
  (forall j, j <= n -> f j = g j) -> try_down f n least = try_down g n least.
Proof.
  induction n as [|n IH]; intros H; simpl; rewrite (H _ (le_n _)); [reflexivity|].
  destruct (S n <? least), (g (S n)); auto.
Qed.

Lemma try_down_none (n least : nat) : try_down (fun _ => @None A) n least = None.
Proof. rewrite try_down_top by reflexivity. now destruct (n <? least). Qed.

Lemma try_down_guard (b : bool) (f : nat -> option A) n least :
  try_down (fun j => if b then f j else None) n least
  = if b then try_down f n least else None.
Proof. destruct b; [reflexivity | apply try_down_none]. Qed.

Lemma try_down_find_last (P : nat -> bool) (g : nat -> A) n :
  try_down (fun j => if P j then Some (g j) else None) n 1 = option_map g (find_last P n).
Proof.
  induction n as [|n IH]; [reflexivity|]. simpl.
  destruct (P (S n)); [reflexivity|]. rewrite <- IH.
  destruct n; [reflexivity|]. simpl. reflexivity.
Qed.

(** Every attempt at or below [n] gives the same verdict [b]: the
    longest one is taken. *)
Lemma try_down_const (b : bool) (f : nat -> option A) (g : nat -> A) n least :
  (forall j, j <= n -> f j = if b then Some (g j) else None) ->
  try_down f n least = if b && (least <=? n) then Some (g n) else None.
Proof.
  intros H. rewrite (try_down_ext _ (fun j => if b then Some (g j) else None)) by auto.
  destruct b; simpl.
  - destruct n; simpl; destruct (least <=? _) eqn:E1, (_ <? least) eqn:E2;
      rewrite ?Nat.leb_le, ?Nat.leb_gt, ?Nat.ltb_lt, ?Nat.ltb_ge in *; auto; lia.
  - apply try_down_none.
Qed.
End TryDown.

Lemma find_last_spec (P : nat -> bool) n p :
  find_last P n = Some p <->
  1 <= p <= n /\ P p = true /\ (forall q, p < q <= n -> P q = false).
Proof.
  induction n as [|n IH]; simpl.
  - split; [discriminate | lia].
  - destruct (P (S n)) eqn:E.
    + split.
      * intros [= <-]. repeat split; auto; lia.
      * intros (Hp & HP & Hq). destruct (Nat.eq_dec p (S n)); [congruence|].
        rewrite Hq in E by lia. discriminate.
    + rewrite IH. split.
      * intros (Hp & HP & Hq). repeat split; auto; try lia.
        intros q Hq'. destruct (Nat.eq_dec q (S n)); [congruence | apply Hq; lia].
      * intros (Hp & HP & Hq). destruct (Nat.eq_dec p (S n)); [congruence|].
        repeat split; auto; try lia. intros q Hq'. apply Hq. lia.
Qed.

Lemma find_last_none (P : nat -> bool) n :
  find_last P n = None <-> (forall q, 1 <= q <= n -> P q = false).
Proof.
  induction n as [|n IH]; simpl.
  - split; [intros; lia | reflexivity].
  - destruct (P (S n)) eqn:E.
    + split; [discriminate|]. intros H. rewrite H in E by lia. discriminate.
    + rewrite IH. split; intros H q Hq; [|apply H; lia].
      destruct (Nat.eq_dec q (S n)); [congruence | apply H; lia].
Qed.

(** ** Characters *)

Lemma word_not_space c : py_isword c = true -> py_isspace c = false.
Proof. destruct c as [[] [] [] [] [] [] [] []]; vm_compute; congruence. Qed.

Lemma newline_space : py_isspace "010" = true.
Proof. reflexivity. Qed.

(** ** Maximal runs *)

Section Runs.
Context (k : charclass).

Lemma run_len_le l : run_len k l <= length l.
Proof. induction l as [|c l IH]; simpl; [lia|]. destruct (class_mem k c); lia. Qed.

Lemma run_len_skip l j :
  j <= run_len k l -> j + run_len k (skipn j l) = run_len k l.
Proof.
  revert j; induction l as [|c l IH]; intros [|j] H; simpl in *; auto; try lia.
  destruct (class_mem k c); [|lia]. pose proof (IH j ltac:(lia)). lia.
Qed.

Lemma run_len_app m l :
  forallb (class_mem k) m = true -> run_len k (m ++ l) = length m + run_len k l.
Proof.
  induction m as [|c m IH]; simpl; [reflexivity|].
  intros [-> H]%andb_prop. now rewrite IH.
Qed.

Lemma run_len_nth l j :
  j < run_len k l -> exists c, nth_error l j = Some c /\ class_mem k c = true.
Proof.
  revert j; induction l as [|c l IH]; intros j H; simpl in *; [lia|].
  destruct (class_mem k c) eqn:E; [|lia].
  destruct j; simpl; eauto. apply IH; lia.
Qed.

Lemma run_len_full l : run_len k l = length l <-> forallb (class_mem k) l = true.
Proof.
  induction l as [|c l IH]; simpl; [tauto|].
  pose proof (run_len_le l).
  destruct (class_mem k c); simpl; [|split; [lia | discriminate]].
  rewrite <- IH. lia.
Qed.
End Runs.

Lemma run_len_mono k1 k2 l :
  (forall c, class_mem k1 c = true -> class_mem k2 c = true) ->
  run_len k1 l <= run_len k2 l.
Proof.
  intros H. induction l as [|c l IH]; simpl; [lia|].
  destruct (class_mem k1 c) eqn:E; [rewrite (H _ E); lia | lia].
Qed.

(** ** Literal text *)

Lemma prefixb_spec m l : prefixb m l = true <-> exists rest, l = m ++ rest.
Proof.
  revert l; induction m as [|a m IH]; intros [|b l]; simpl.
  - split; eauto.
  - split; eauto.
  - split; [discriminate | intros [? H]; discriminate].
  - destruct (ascii_dec a b) as [->|Hne].
    + rewrite IH. split; intros [rest H]; exists rest; congruence.
    + split; [discriminate | intros [? H]; congruence].
Qed.

(** ** The tail [\S*$] *)

Lemma not_eol_inside s i j :
  j < run_len CNonSpace (skipn i s) -> at_eol s (i + j) = false.
Proof.
  intros H. destruct (run_len_nth _ _ _ H) as (c & Hc & Hns).
  rewrite nth_error_skipn in Hc.
  assert (i + j < length s) by (apply nth_error_Some; congruence).
  unfold at_eol. rewrite Hc. simpl in Hns.
  destruct (ascii_dec c "010") as [->|]; [discriminate|].
  rewrite (proj2 (Nat.eqb_neq _ _)) by lia. now rewrite andb_false_r.
Qed.

Lemma mrun_tail s i cs k :
  mrun (RSeq (RRep CNonSpace 0) REol) s i cs k
  = let e := i + run_len CNonSpace (skipn i s) in
    if at_eol s e then k e cs else None.
Proof.
  simpl. rewrite try_down_top.
  - now destruct (run_len CNonSpace (skipn i s)).
  - intros j Hj. now rewrite not_eol_inside.
Qed.

(** ** [str.strip] leaves no space at either end *)

Lemma lstrip_head l c r : lstrip_l l = c :: r -> py_isspace c = false.
Proof.
  induction l as [|d l IH]; simpl; [discriminate|].
  destruct (py_isspace d) eqn:E; [exact IH | congruence].
Qed.

Lemma strip_l_last l r c : strip_l l = r ++ [c] -> py_isspace c = false.
Proof.
  unfold strip_l. intros H.
  apply (f_equal (@rev ascii)) in H. rewrite rev_involutive, rev_app_distr in H.
  exact (lstrip_head _ _ _ H).
Qed.

Lemma strip_l_first l c r : strip_l l = c :: r -> py_isspace c = false.
Proof.
  unfold strip_l. intros H.
  destruct (lstrip_l l) as [|d l'] eqn:El.
  - discriminate.
  - pose proof (lstrip_head _ _ _ El) as Hd. simpl in H.
    (* the first character of the result is [d] unless [d] was removed from
       the end, which a non-space character never is *)
    assert (Hrev : exists x, lstrip_l (rev l' ++ [d]) = x ++ [d]).
    { clear H. generalize (rev l'). intros t. induction t as [|e t IH]; simpl.
      - rewrite Hd. now exists [].
      - destruct (py_isspace e); [exact IH | now exists (e :: t)]. }
    destruct Hrev as [x Hx]. rewrite Hx, rev_app_distr in H. simpl in H. congruence.
Qed.
