(* ===== verification/LinkClassifier.v ===== *)
(** * LinkClassifier: [ItemList.get_id] ([src/src/itemlist.py], lines 70-84)

    [get_id] strips the line and returns [match.group(2)] and the type of the
    first of four patterns that matches, or [("invalid", "invalid")].  This
    file writes the four patterns in the syntax of [LinkRegex], defines
    [get_id] with the backtracking matcher, defines a direct scanning
    classifier [classify], proves that the two agree on every line, and
    derives the classification properties from the scanner. *)

From Stdlib Require Import String Ascii List Bool Arith Lia.
From S2P Require Import Prelude LinkRegex.
Import ListNotations.

(** The [link_type] strings of the source: ["playlist"], ["video"],
    ["invalid"]. *)
Inductive link_type : Type := Playlist | Video | Invalid.

Definition link_type_eq_dec (a b : link_type) : {a = b} + {a <> b}.
Proof. decide equality. Defined.

(** ** The patterns *)

(** [[\w_-]] *)
Definition id_class : charclass := CUnion CWord (CUnion (CChar "_") (CChar "-")).

(** [[\S]*$] *)
Definition tail_re : regex := RSeq (RRep CNonSpace 0) REol.
(** [([\w_-]+)] *)
Definition id_group : regex := RGroup 2 (RRep id_class 1).
(** [([\S]+m)] *)
Definition prefix_group (m : string) : regex := RGroup 1 (RSeq (RRep CNonSpace 1) (RLits m)).

(** [^([\S]+m)([\w_-]+)[\S]*$] *)
Definition marker_pattern (m : string) : regex :=
  RSeq RBol (RSeq (prefix_group m) (RSeq id_group tail_re)).

(** [^([\S]+list=)?([\w_-]+)[\S]*$] *)
Definition bare_pattern : regex :=
  RSeq RBol (RSeq (ROpt (prefix_group "list=")) (RSeq id_group tail_re)).

Arguments tail_re : simpl never.
Arguments id_group : simpl never.

Definition patterns : list (regex * link_type) :=
  [ (marker_pattern "list=", Playlist);
    (marker_pattern "v=", Video);
    (marker_pattern "be/", Video);
    (bare_pattern, Playlist) ].

Definition invalid_id : string := "invalid".

(** [for pattern, link_type in patterns: match = re.match(pattern, link);
    if match: return match.group(2), link_type].  Group 2 lies outside every
    optional part of the patterns, so a successful match always sets it
    ([first_match_group2] below); the [None] branch is never taken. *)
Fixpoint first_match (ps : list (regex * link_type)) (link : string) : string * link_type :=
  match ps with
  | [] => (invalid_id, Invalid)
  | (p, t) :: ps' =>
      match re_match p link with
      | Some cs =>
          (match match_group link cs 2 with Some g => g | None => EmptyString end, t)
      | None => first_match ps' link
      end
  end.

Definition get_id (playlist_link : string) : string * link_type :=
  first_match patterns (py_strip playlist_link).

(** ** The direct classifier *)

Definition id_start (l : list ascii) : bool :=
  match l with c :: _ => class_mem id_class c | [] => false end.

(** The maximal identifier run at the head of [l]. *)
Definition id_run (l : list ascii) : list ascii := firstn (run_len id_class l) l.

(** Marker [m] occurs at [p] and an identifier character follows it. *)
Definition marker_at (m s : list ascii) (p : nat) : bool :=
  prefixb m (skipn p s) && id_start (skipn (p + length m) s).

(** The identifier after the last marker occurrence at a position [>= 1]. *)
Definition marker_id (m : string) (s : list ascii) : option (list ascii) :=
  let ml := list_ascii_of_string m in
  option_map (fun p => id_run (skipn (p + length ml) s))
             (find_last (marker_at ml s) (length s)).

Definition nonspace_all (s : list ascii) : bool := forallb (class_mem CNonSpace) s.

Definition classify_l (s : list ascii) : list ascii * link_type :=
  if nonspace_all s then
    match marker_id "list=" s with
    | Some id => (id, Playlist)
    | None =>
      match marker_id "v=" s with
      | Some id => (id, Video)
      | None =>
        match marker_id "be/" s with
        | Some id => (id, Video)
        | None => if id_start s then (id_run s, Playlist)
                  else (list_ascii_of_string invalid_id, Invalid)
        end
      end
    end
  else (list_ascii_of_string invalid_id, Invalid).

(** The characters of [playlist_link.strip()]. *)
Definition stripped (line : string) : list ascii := strip_l (list_ascii_of_string line).

Definition classify (line : string) : string * link_type :=
  let '(id, t) := classify_l (stripped line) in
  (string_of_list_ascii id, t).

(** ** Computing the matcher on the pattern pieces *)

Lemma id_class_nonspace c : class_mem id_class c = true -> class_mem CNonSpace c = true.
Proof.
  simpl. intros H. apply negb_true_iff.
  destruct (py_isword c) eqn:E; [now apply word_not_space|].
  destruct (ascii_dec c "_") as [->|]; [reflexivity|].
  destruct (ascii_dec c "-") as [->|]; [reflexivity | discriminate].
Qed.

Lemma id_start_run l : id_start l = (1 <=? run_len id_class l).
Proof.
  destruct l as [|c l]; [reflexivity|]. unfold id_start. cbn [run_len].
  now destruct (class_mem id_class c).
Qed.

Lemma mrun_tail_re s i cs k :
  mrun tail_re s i cs k
  = let e := i + run_len CNonSpace (skipn i s) in if at_eol s e then k e cs else None.
Proof. apply mrun_tail. Qed.

(** [([\w_-]+)[\S]*$] at position [q]: the whole identifier run is taken. *)
Lemma mrun_id_tail s q cs :
  mrun id_group s q cs (fun i' cs' => mrun tail_re s i' cs' accept)
  = if at_eol s (q + run_len CNonSpace (skipn q s)) && (1 <=? run_len id_class (skipn q s))
    then Some ((2, (q, q + run_len id_class (skipn q s))) :: cs) else None.
Proof.
  unfold id_group. cbn [mrun].
  rewrite (try_down_const (at_eol s (q + run_len CNonSpace (skipn q s))) _
             (fun j => (2, (q, q + j)) :: cs)); [reflexivity|].
  intros j Hj.
  rewrite mrun_tail_re. cbv zeta.
  rewrite <- skipn_skipn'.
  pose proof (run_len_mono _ _ (skipn q s) id_class_nonspace).
  pose proof (run_len_skip CNonSpace (skipn q s) j ltac:(lia)).
  replace (q + j + run_len CNonSpace (skipn j (skipn q s)))
    with (q + run_len CNonSpace (skipn q s)) by lia.
  reflexivity.
Qed.

(** The captures of a marker pattern whose marker [ml] ends the prefix at
    [p + length ml]. *)
Definition marker_caps (ml s : list ascii) (p : nat) : captures :=
  [(2, (p + length ml, p + length ml + run_len id_class (skipn (p + length ml) s)));
   (1, (0, p + length ml))].

Section Marker.
Context (m : string).
Let ml := list_ascii_of_string m.
Hypothesis m_nonspace : nonspace_all ml = true.

Lemma marker_end s j :
  prefixb ml (skipn j s) = true -> j <= run_len CNonSpace s ->
  j + length ml + run_len CNonSpace (skipn (j + length ml) s) = run_len CNonSpace s.
Proof.
  intros [rest Hr]%prefixb_spec Hj.
  pose proof (run_len_skip CNonSpace s j Hj) as Hs.
  rewrite Hr, run_len_app in Hs by exact m_nonspace.
  rewrite <- skipn_skipn', Hr, skipn_app, skipn_all, Nat.sub_diag. simpl. lia.
Qed.

(** [re.match("^([\S]+m)([\w_-]+)[\S]*$", s)]: the prefix settles on the
    last marker occurrence followed by an identifier character. *)
Lemma mrun_marker s :
  mrun (marker_pattern m) s 0 [] accept
  = if at_eol s (run_len CNonSpace s)
    then option_map (marker_caps ml s) (find_last (marker_at ml s) (run_len CNonSpace s))
    else None.
Proof.
  unfold marker_pattern, prefix_group. cbn [mrun Nat.eqb skipn Nat.add]. fold ml.
  transitivity
    (try_down (fun j => if at_eol s (run_len CNonSpace s)
                        then if marker_at ml s j then Some (marker_caps ml s j) else None
                        else None) (run_len CNonSpace s) 1).
  - apply try_down_ext. intros j Hj.
    rewrite mrun_id_tail. unfold marker_at.
    destruct (prefixb ml (skipn j s)) eqn:Ep; cbn [andb].
    + rewrite (marker_end s j Ep Hj), id_start_run.
      destruct (at_eol s (run_len CNonSpace s)),
               (1 <=? run_len id_class (skipn (j + length ml) s)); reflexivity.
    + now destruct (at_eol s (run_len CNonSpace s)).
  - rewrite try_down_guard.
    destruct (at_eol s (run_len CNonSpace s)); [apply try_down_find_last | reflexivity].
Qed.
End Marker.

Lemma mrun_bare s :
  mrun bare_pattern s 0 [] accept
  = match mrun (marker_pattern "list=") s 0 [] accept with
    | Some cs => Some cs
    | None => mrun id_group s 0 [] (fun i' cs' => mrun tail_re s i' cs' accept)
    end.
Proof. reflexivity. Qed.

(** ** The matcher and the scanner agree *)

(** On a stripped line, [[\S]*$] reaches the end exactly when the line has
    no whitespace. *)
Lemma eol_stripped s :
  (forall r c, s = r ++ [c] -> py_isspace c = false) ->
  at_eol s (run_len CNonSpace s) = nonspace_all s.
Proof.
  intros Hlast. unfold nonspace_all.
  destruct (forallb (class_mem CNonSpace) s) eqn:E.
  - rewrite (proj2 (run_len_full _ _) E). unfold at_eol. now rewrite Nat.eqb_refl.
  - assert (Hne : run_len CNonSpace s <> length s) by (rewrite run_len_full; congruence).
    pose proof (run_len_le CNonSpace s).
    unfold at_eol. rewrite (proj2 (Nat.eqb_neq _ _) Hne), orb_false_l.
    destruct (Nat.eqb_spec (S (run_len CNonSpace s)) (length s)) as [Hl|]; [|reflexivity].
    pose proof (skipn_nth_error s (run_len CNonSpace s)) as Hn.
    destruct (skipn (run_len CNonSpace s) s) as [|c t] eqn:Hs.
    + now rewrite Hn.
    + rewrite Hn. destruct (ascii_dec c "010") as [->|]; [|reflexivity].
      assert (t = []) as ->.
      { apply length_zero_iff_nil. apply (f_equal (@length ascii)) in Hs.
        rewrite length_skipn in Hs. simpl in Hs. lia. }
      enough (py_isspace "010"%char = false) by discriminate.
      apply (Hlast (firstn (run_len CNonSpace s) s)).
      rewrite <- Hs. symmetry. apply firstn_skipn.
Qed.

Lemma match_group_marker s ml p :
  match_group (string_of_list_ascii s) (marker_caps ml s p) 2
  = Some (string_of_list_ascii (id_run (skipn (p + length ml) s))).
Proof.
  unfold match_group, marker_caps, id_run. simpl.
  rewrite list_ascii_of_string_of_list_ascii.
  do 3 f_equal. lia.
Qed.

Lemma match_group_bare s :
  match_group (string_of_list_ascii s) [(2, (0, 0 + run_len id_class (skipn 0 s)))] 2
  = Some (string_of_list_ascii (id_run s)).
Proof.
  unfold match_group, id_run. simpl.
  rewrite list_ascii_of_string_of_list_ascii, Nat.sub_0_r. reflexivity.
Qed.

(** The backtracking run of the four patterns, computed. *)
Lemma get_id_scanner line : get_id line = classify line.
Proof.
  unfold get_id, classify, py_strip, stripped.
  pose proof (strip_l_last (list_ascii_of_string line)) as Hlast.
  set (s := strip_l (list_ascii_of_string line)) in *.
  unfold first_match, patterns, re_match.
  rewrite list_ascii_of_string_of_list_ascii, mrun_bare, !mrun_marker, mrun_id_tail
    by reflexivity.
  cbn [Nat.add skipn]. rewrite eol_stripped by exact Hlast.
  unfold classify_l, marker_id.
  destruct (nonspace_all s) eqn:Ens;
    [|cbn [andb]; now rewrite string_of_list_ascii_of_string].
  rewrite (proj2 (run_len_full _ _) Ens). cbn [andb].
  destruct (find_last (marker_at (list_ascii_of_string "list=") s) (length s));
    [cbn [option_map]; now rewrite match_group_marker|].
  destruct (find_last (marker_at (list_ascii_of_string "v=") s) (length s));
    [cbn [option_map]; now rewrite match_group_marker|].
  destruct (find_last (marker_at (list_ascii_of_string "be/") s) (length s));
    [cbn [option_map]; now rewrite match_group_marker|].
  cbn [option_map Nat.add skipn]. rewrite <- id_start_run.
  destruct (id_start s).
  - now rewrite match_group_bare.
  - now rewrite string_of_list_ascii_of_string.
Qed.

(** C1: [get_id], computed by Python's backtracking semantics of the four
    regular expressions, equals the direct scanner [classify] on every line:
    invalid unless the stripped line is whitespace-free; otherwise the
    identifier after the last ["list="], else ["v="], else ["be/"] marker,
    else the leading identifier run as a playlist id. *)
Theorem get_id_classify line : get_id line = classify line.
Proof. exact (get_id_scanner line). Qed.

(** ** Lemmas on the scanner *)

Lemma prefixb_nonempty_lt m s p :
  m <> [] -> prefixb m (skipn p s) = true -> p < length s.
Proof.
  intros Hm [rest Hr]%prefixb_spec.
  apply (f_equal (@length ascii)) in Hr. rewrite length_skipn, length_app in Hr.
  destruct m; [congruence|]. simpl in Hr. lia.
Qed.

Lemma marker_at_lt ml s p : ml <> [] -> marker_at ml s p = true -> p < length s.
Proof. unfold marker_at. intros Hm [H _]%andb_prop. eauto using prefixb_nonempty_lt. Qed.

(** A marker [m] yields the identifier after its last occurrence at a
    position [>= 1] that an identifier character follows. *)
Lemma marker_id_last m s p :
  list_ascii_of_string m <> [] ->
  marker_at (list_ascii_of_string m) s p = true -> 1 <= p ->
  (forall q, p < q -> marker_at (list_ascii_of_string m) s q = false) ->
  marker_id m s = Some (id_run (skipn (p + length (list_ascii_of_string m)) s)).
Proof.
  intros Hm Hp H1 Hq. unfold marker_id.
  rewrite (proj2 (find_last_spec _ _ p)); [reflexivity|].
  pose proof (marker_at_lt _ _ _ Hm Hp). repeat split; auto; try lia.
  intros q Hq'. apply Hq. lia.
Qed.

Lemma marker_id_none m s :
  list_ascii_of_string m <> [] ->
  marker_id m s = None <-> (forall q, 1 <= q -> marker_at (list_ascii_of_string m) s q = false).
Proof.
  intros Hm. unfold marker_id. split.
  - intros H q Hq. destruct (find_last _ _) eqn:E; [discriminate|].
    destruct (marker_at _ s q) eqn:Eq; [|reflexivity].
    pose proof (marker_at_lt _ _ _ Hm Eq).
    rewrite (proj1 (find_last_none _ _) E q) in Eq by lia. discriminate.
  - intros H. rewrite (proj2 (find_last_none _ _)); [reflexivity|].
    intros q Hq. apply H. lia.
Qed.

Lemma marker_id_some m s id :
  marker_id m s = Some id ->
  exists p, marker_at (list_ascii_of_string m) s p = true
            /\ id = id_run (skipn (p + length (list_ascii_of_string m)) s).
Proof.
  unfold marker_id. destruct (find_last _ _) as [p|] eqn:E; [|discriminate].
  intros [= <-]. apply find_last_spec in E. exists p. tauto.
Qed.

(** The last-occurrence hypothesis as a finite check. *)
Lemma no_marker_after ml s p :
  ml <> [] ->
  forallb (fun q => negb (marker_at ml s q)) (seq (S p) (length s - p)) = true ->
  forall q, p < q -> marker_at ml s q = false.
Proof.
  intros Hm Hall q Hq.
  destruct (marker_at ml s q) eqn:E; [|reflexivity].
  pose proof (marker_at_lt _ _ _ Hm E).
  rewrite forallb_forall in Hall.
  assert (Hin : In q (seq (S p) (length s - p))) by (apply in_seq; lia).
  specialize (Hall q Hin). now rewrite E in Hall.
Qed.

Lemma run_len_firstn_all k l : forallb (class_mem k) (firstn (run_len k l) l) = true.
Proof.
  induction l as [|c l IH]; simpl; [reflexivity|].
  destruct (class_mem k c) eqn:E; simpl; [now rewrite E, IH | reflexivity].
Qed.

(** An identifier run at a position where one starts is non-empty, made of
    identifier characters, and a prefix of the text there. *)
Lemma id_run_spec l :
  id_start l = true ->
  id_run l <> [] /\ forallb (class_mem id_class) (id_run l) = true
  /\ exists post, l = id_run l ++ post.
Proof.
  intros H. unfold id_run. repeat split.
  - rewrite id_start_run in H. apply Nat.leb_le in H.
    intros E. apply (f_equal (@length ascii)) in E. rewrite length_firstn in E.
    pose proof (run_len_le id_class l). simpl in E. lia.
  - apply run_len_firstn_all.
  - eexists. symmetry. apply firstn_skipn.
Qed.

Lemma nonspace_all_app a b : nonspace_all (a ++ b) = nonspace_all a && nonspace_all b.
Proof. apply forallb_app. Qed.

Lemma classify_l_valid s l t :
  classify_l s = (l, t) -> t <> Invalid ->
  exists k, id_start (skipn k s) = true /\ l = id_run (skipn k s).
Proof.
  unfold classify_l. intros H Ht.
  destruct (nonspace_all s); [|congruence].
  repeat match type of H with
  | context [match marker_id ?m s with _ => _ end] =>
      let E := fresh "E" in
      destruct (marker_id m s) eqn:E;
      [injection H as <- <-; apply marker_id_some in E as (p & Hp & ->);
       unfold marker_at in Hp; apply andb_prop in Hp; eexists; split; [apply Hp | reflexivity]|]
  end.
  destruct (id_start s) eqn:Eid; [|congruence]. injection H as <- <-. exists 0. auto.
Qed.

Lemma prefixb_forallb k m s q :
  prefixb m (skipn q s) = true -> forallb (class_mem k) s = true ->
  forallb (class_mem k) m = true.
Proof.
  intros [rest Hr]%prefixb_spec Hs.
  rewrite <- (firstn_skipn q s), forallb_app, Hr, forallb_app in Hs.
  now apply andb_prop in Hs as [_ [? _]%andb_prop].
Qed.

Lemma nonspace_of_id s : forallb (class_mem id_class) s = true -> nonspace_all s = true.
Proof.
  unfold nonspace_all. rewrite !forallb_forall. intros H c Hc. now apply id_class_nonspace, H.
Qed.

(** ** Classification properties *)

(** C2: a whitespace-free line is a playlist link when ["list="] occurs at
    a position [p >= 1] followed by an identifier character; the id is the
    identifier run after the last such occurrence, whatever other markers
    the line holds. *)
Theorem get_id_list_marker line p :
  nonspace_all (stripped line) = true ->
  1 <= p ->
  marker_at (list_ascii_of_string "list=") (stripped line) p = true ->
  (forall q, p < q -> marker_at (list_ascii_of_string "list=") (stripped line) q = false) ->
  get_id line = (string_of_list_ascii (id_run (skipn (p + 5) (stripped line))), Playlist).
Proof.
  intros Hns H1 Hp Hq. rewrite get_id_scanner. unfold classify, classify_l.
  rewrite Hns, (marker_id_last _ _ p); auto; discriminate.
Qed.

Lemma get_id_list_marker_witness :
  get_id "https://h.tv/watch?v=abc&list=PL1x" = ("PL1x"%string, Playlist).
Proof.
  rewrite (get_id_list_marker _ 25); [reflexivity | reflexivity | lia | reflexivity |].
  apply no_marker_after; [discriminate | reflexivity].
Defined.

(** C3: a whitespace-free line with no playlist marker is a video link when
    ["v="] occurs at a position [p >= 1] followed by an identifier
    character; the id is the identifier run after the last such
    occurrence. *)
Theorem get_id_video_marker line p :
  nonspace_all (stripped line) = true ->
  (forall q, 1 <= q -> marker_at (list_ascii_of_string "list=") (stripped line) q = false) ->
  1 <= p ->
  marker_at (list_ascii_of_string "v=") (stripped line) p = true ->
  (forall q, p < q -> marker_at (list_ascii_of_string "v=") (stripped line) q = false) ->
  get_id line = (string_of_list_ascii (id_run (skipn (p + 2) (stripped line))), Video).
Proof.
  intros Hns Hl H1 Hp Hq. rewrite get_id_scanner. unfold classify, classify_l.
  rewrite Hns, (proj2 (marker_id_none "list=" _ ltac:(discriminate)) Hl),
    (marker_id_last _ _ p); auto; discriminate.
Qed.

Lemma get_id_video_marker_witness :
  get_id " https://h.tv/watch?v=abc123&t=4 " = ("abc123"%string, Video).
Proof.
  rewrite (get_id_video_marker _ 19); [reflexivity | reflexivity | | lia | reflexivity |].
  - intros q Hq. apply (no_marker_after _ _ 0); [discriminate | reflexivity | lia].
  - apply no_marker_after; [discriminate | reflexivity].
Defined.

(** C4: a non-empty stripped line made only of identifier characters
    ([[\w_-]]) is classified as a playlist whose id is the whole stripped
    line: a bare token is never taken for a video id. *)
Theorem get_id_bare_token line :
  stripped line <> [] ->
  forallb (class_mem id_class) (stripped line) = true ->
  get_id line = (py_strip line, Playlist).
Proof.
  intros Hne Hid. rewrite get_id_scanner. unfold classify, classify_l.
  assert (Hnone : forall m, forallb (class_mem id_class) (list_ascii_of_string m) = false ->
                            marker_id m (stripped line) = None).
  { intros m Hm. apply marker_id_none; [intros E; now rewrite E in Hm|].
    intros q _. unfold marker_at. destruct (prefixb _ _) eqn:Ep; [|reflexivity].
    now rewrite (prefixb_forallb _ _ _ _ Ep Hid) in Hm. }
  rewrite nonspace_of_id, !Hnone by (reflexivity || assumption).
  change (py_strip line) with (string_of_list_ascii (stripped line)).
  destruct (stripped line) as [|c r]; [congruence|].
  cbn [forallb] in Hid. apply andb_prop in Hid as [Hc Hr].
  unfold id_start. rewrite Hc. unfold id_run.
  rewrite (proj2 (run_len_full id_class (c :: r))), firstn_all; [reflexivity|].
  cbn [forallb]. now rewrite Hc, Hr.
Qed.

Lemma get_id_bare_token_witness : get_id "  PLrF-x_9 " = ("PLrF-x_9"%string, Playlist).
Proof. rewrite get_id_bare_token by (vm_compute; congruence). reflexivity. Defined.

(** C5: [get_id] reports ["invalid"] exactly when the stripped line holds a
    whitespace character, or it neither starts with an identifier character
    nor holds any of the three markers (at a position [>= 1], followed by an
    identifier character). *)
Theorem get_id_invalid_iff line :
  snd (get_id line) = Invalid <->
  nonspace_all (stripped line) = false
  \/ (id_start (stripped line) = false
      /\ forall m q, In m ["list="; "v="; "be/"]%string -> 1 <= q ->
                     marker_at (list_ascii_of_string m) (stripped line) q = false).
Proof.
  rewrite get_id_scanner. unfold classify, classify_l.
  set (s := stripped line).
  assert (Hm : forall m, In m ["list="; "v="; "be/"]%string -> list_ascii_of_string m <> []).
  { intros m [<-|[<-|[<-|[]]]]; discriminate. }
  destruct (nonspace_all s); [|simpl; tauto].
  split.
  - intros Ht. right.
    destruct (marker_id "list=" s) eqn:E1; [discriminate|].
    destruct (marker_id "v=" s) eqn:E2; [discriminate|].
    destruct (marker_id "be/" s) eqn:E3; [discriminate|].
    destruct (id_start s); [discriminate|]. split; [reflexivity|].
    intros m q Hin. apply marker_id_none; [now apply Hm|].
    destruct Hin as [<-|[<-|[<-|[]]]]; assumption.
  - intros [H|[Hs Hq]]; [discriminate|].
    rewrite (proj2 (marker_id_none "list=" s ltac:(discriminate))),
      (proj2 (marker_id_none "v=" s ltac:(discriminate))),
      (proj2 (marker_id_none "be/" s ltac:(discriminate)))
      by (intros q; apply Hq; simpl; tauto).
    now rewrite Hs.
Qed.

Lemma get_id_invalid_iff_witness : snd (get_id "my playlist") = Invalid.
Proof. apply get_id_invalid_iff. left. reflexivity. Defined.

(** C6: every id [get_id] returns with a type other than ["invalid"] is a
    non-empty run of identifier characters ([[\w_-]]) that occurs in the
    stripped line. *)
Theorem get_id_id_wellformed line id t :
  get_id line = (id, t) -> t <> Invalid ->
  list_ascii_of_string id <> []
  /\ forallb (class_mem id_class) (list_ascii_of_string id) = true
  /\ exists pre post, stripped line = pre ++ list_ascii_of_string id ++ post.
Proof.
  rewrite get_id_scanner. unfold classify.
  destruct (classify_l (stripped line)) as [l t'] eqn:E. intros [= <- <-] Ht.
  rewrite list_ascii_of_string_of_list_ascii.
  destruct (classify_l_valid _ _ _ E Ht) as (k & Hk & ->).
  destruct (id_run_spec _ Hk) as (Hne & Hall & post & Hpost).
  repeat split; auto. exists (firstn k (stripped line)), post.
  rewrite <- Hpost. symmetry. apply firstn_skipn.
Qed.

Lemma get_id_id_wellformed_witness :
  list_ascii_of_string "PL1x" <> []
  /\ forallb (class_mem id_class) (list_ascii_of_string "PL1x") = true
  /\ exists pre post, stripped "https://h.tv/watch?v=abc&list=PL1x"
                      = pre ++ list_ascii_of_string "PL1x" ++ post.
Proof.
  apply (get_id_id_wellformed _ _ Playlist); [vm_compute; reflexivity | discriminate].
Defined.

(** C7: the fallback pattern accepts every whitespace-free stripped line
    that starts with an identifier character and carries none of the three
    markers at a position [>= 1]: it is a playlist whose id is the leading
    identifier run.  A plain web address such as ["https://example.com/"]
    thus becomes the playlist id ["https"], and ["list=PL1"], whose marker
    sits at position 0, the playlist id ["list"]. *)
Theorem get_id_unmarked line :
  nonspace_all (stripped line) = true ->
  id_start (stripped line) = true ->
  (forall m q, In m ["list="; "v="; "be/"]%string -> 1 <= q ->
               marker_at (list_ascii_of_string m) (stripped line) q = false) ->
  get_id line = (string_of_list_ascii (id_run (stripped line)), Playlist).
Proof.
  intros Hns Hs Hq. rewrite get_id_scanner. unfold classify, classify_l.
  rewrite Hns, (proj2 (marker_id_none "list=" _ ltac:(discriminate))),
    (proj2 (marker_id_none "v=" _ ltac:(discriminate))),
    (proj2 (marker_id_none "be/" _ ltac:(discriminate)))
    by (intros q; apply Hq; simpl; tauto).
  now rewrite Hs.
Qed.

Lemma get_id_unmarked_witness : get_id "https://example.com/" = ("https"%string, Playlist).
Proof.
  rewrite get_id_unmarked; [vm_compute; reflexivity | vm_compute; reflexivity
                           | vm_compute; reflexivity |].
  intros m q Hin Hq. destruct Hin as [<-|[<-|[<-|[]]]];
    (apply (no_marker_after _ _ 0); [discriminate | vm_compute; reflexivity | lia]).
Defined.
