(* ===== verification/IdentifierSet.v ===== *)
(** * IdentifierSet: [ItemList.get_item_ids] ([src/src/itemlist.py], lines 136-150)

    [get_item_ids] splits the input on ["\n"], classifies every line with
    [get_id], appends the id to [videos] or [playlists] by its type (invalid
    lines are dropped), and deduplicates both lists with
    [list(dict.fromkeys(...))], which keeps the first occurrence of every id
    in first-seen order.  This file models [str.split("\n")],
    [dict.fromkeys] as an insertion-ordered key list, and [get_item_ids],
    on stdpp's lists and decision procedures. *)

From Stdlib Require Import String Ascii.
From stdpp Require Import base list sets strings.
From S2P Require Import Prelude LinkRegex LinkClassifier.

(** ** [str.split("\n")] *)

Fixpoint split_newline (s : string) : list string :=
  match s with
  | EmptyString => [EmptyString]
  | String c s' =>
      let parts := split_newline s' in
      if ascii_dec c "010" then EmptyString :: parts
      else match parts with
           | p :: ps => String c p :: ps
           | [] => [String c EmptyString]
           end
  end.

(** ** [dict.fromkeys]: the keys of a dict built by inserting [l] in order

    Inserting a key that is already present keeps its original position. *)
Definition dict_insert (keys : list string) (x : string) : list string :=
  if decide (x ∈ keys) then keys else keys ++ [x].

Definition dict_fromkeys (l : list string) : list string := fold_left dict_insert l [].

(** ** [get_item_ids] *)

(** One iteration of [for item in self.input_string.split("\n")]. *)
Definition bucket (acc : list string * list string) (item : string)
  : list string * list string :=
  let '(playlists, videos) := acc in
  let '(item_id, item_type) := get_id item in
  match item_type with
  | Video => (playlists, videos ++ [item_id])
  | Playlist => (playlists ++ [item_id], videos)
  | Invalid => (playlists, videos)
  end.

Definition get_item_ids (input_string : string) : list string * list string :=
  let '(playlists, videos) := fold_left bucket (split_newline input_string) ([], []) in
  (dict_fromkeys playlists, dict_fromkeys videos).

(** The ids of type [t] of the lines, in line order, repeats included. *)
Definition ids_of (t : link_type) (lines : list string) : list string :=
  omap (fun line => if link_type_eq_dec (snd (get_id line)) t
                    then Some (fst (get_id line)) else None) lines.

(** ** [dict.fromkeys] *)

Lemma dict_fromkeys_snoc l x :
  dict_fromkeys (l ++ [x]) = dict_insert (dict_fromkeys l) x.
Proof. unfold dict_fromkeys. now rewrite fold_left_app. Qed.

Lemma elem_of_dict_fromkeys l x : x ∈ dict_fromkeys l ↔ x ∈ l.
Proof.
  induction l as [|y l IH] using rev_ind; [done|].
  rewrite dict_fromkeys_snoc. unfold dict_insert.
  case_decide; set_solver.
Qed.

(** C8: [list(dict.fromkeys(l))] equals the reference deduplication that
    keeps the first occurrence of each key: reverse the list, keep the last
    occurrences with stdpp's [remove_dups], reverse back. *)
Theorem dict_fromkeys_remove_dups l : dict_fromkeys l = reverse (remove_dups (reverse l)).
Proof.
  induction l as [|y l IH] using rev_ind; [done|].
  rewrite dict_fromkeys_snoc, reverse_snoc. unfold dict_insert. cbn [remove_dups].
  destruct (decide (y ∈ dict_fromkeys l)) as [H1|H1];
    destruct (decide_rel (∈) y (reverse l)) as [H2|H2].
  - done.
  - exfalso. apply H2, elem_of_reverse, elem_of_dict_fromkeys, H1.
  - exfalso. apply H1, elem_of_dict_fromkeys, elem_of_reverse, H2.
  - by rewrite reverse_cons, IH.
Qed.

Lemma NoDup_dict_fromkeys l : NoDup (dict_fromkeys l).
Proof.
  induction l as [|y l IH] using rev_ind; [constructor|].
  rewrite dict_fromkeys_snoc. unfold dict_insert.
  case_decide; [done|]. apply NoDup_app. split; [done|]. split; [set_solver|].
  apply NoDup_singleton.
Qed.

#[export] Hint Resolve NoDup_dict_fromkeys : itemlist.

(** ** Bucketing by type *)

Lemma fold_bucket lines p v :
  fold_left bucket lines (p, v) = (p ++ ids_of Playlist lines, v ++ ids_of Video lines).
Proof.
  revert p v. induction lines as [|line lines IH]; intros p v; simpl.
  - by rewrite !app_nil_r.
  - unfold ids_of at 1 3. simpl. destruct (get_id line) as [id []]; simpl;
      rewrite IH; by rewrite <- ?app_assoc.
Qed.

Lemma elem_of_ids_of t lines id :
  id ∈ ids_of t lines ↔ ∃ line, line ∈ lines ∧ get_id line = (id, t).
Proof.
  unfold ids_of. rewrite list_elem_of_omap. split.
  - intros (line & Hin & H). exists line. split; [done|].
    destruct (get_id line) as [id' t']; simpl in H.
    destruct (link_type_eq_dec t' t); simplify_eq; done.
  - intros (line & Hin & H). exists line. rewrite H. simpl.
    destruct (link_type_eq_dec t t); done.
Qed.

(** C9: [get_item_ids] returns the playlist ids and the video ids of the
    lines, each in the order of the lines with later repeats removed;
    invalid lines contribute to neither list. *)
Theorem get_item_ids_spec input_string :
  get_item_ids input_string
  = (dict_fromkeys (ids_of Playlist (split_newline input_string)),
     dict_fromkeys (ids_of Video (split_newline input_string))).
Proof. unfold get_item_ids. by rewrite fold_bucket. Qed.

(** C10: both id lists of [get_item_ids] are free of duplicates. *)
Theorem get_item_ids_nodup input_string :
  NoDup (get_item_ids input_string).1 ∧ NoDup (get_item_ids input_string).2.
Proof. unfold get_item_ids. rewrite fold_bucket. simpl. auto with itemlist. Qed.

(** C11: an id is among the playlist (video) ids exactly when some line of
    the input classifies to it as a playlist (video). *)
Theorem get_item_ids_members input_string id :
  (id ∈ (get_item_ids input_string).1
   ↔ ∃ line, line ∈ split_newline input_string ∧ get_id line = (id, Playlist))
  ∧ (id ∈ (get_item_ids input_string).2
     ↔ ∃ line, line ∈ split_newline input_string ∧ get_id line = (id, Video)).
Proof.
  unfold get_item_ids. rewrite fold_bucket. simpl.
  by rewrite !elem_of_dict_fromkeys, !elem_of_ids_of.
Qed.
