(* ===== verification/PyJson.v ===== *)
(** * Python values the orchestrator receives from the APIs, and the
    exceptions their operations raise

    [call_youtube_api] and [response.json()] return decoded JSON: [None],
    booleans, numbers, strings, lists and dicts.  [src/src/itemlist.py]
    subscripts them ([results["items"]], [data["snippet"]["title"]],
    lines 93, 100, 119-120, 131, 62-64), takes [len] (line 93), iterates them
    in [zip] and comprehensions (lines 102, 131, 66) and calls [dict.get]
    (line 66).  This file gives the value type [json], the exception type
    [exn] of the model and those four operations with Python's outcomes.

    A dict is the association list of its keys in insertion order; keys are
    unique, as [json.loads] makes them.  Numbers are integers: no field the
    program reads is a float. *)

From Stdlib Require Import String Ascii List ZArith Bool DecimalString.
From S2P Require Import Prelude.
Import ListNotations.
Local Open Scope string_scope.
#[local] Set Warnings "-register-all".

Inductive json : Type :=
| JNull
| JBool (b : bool)
| JNum (z : Z)
| JStr (s : string)
| JArr (xs : list json)
| JObj (fields : list (string * json)).

(** The exceptions the model raises.  [PyException arg] is
    [raise Exception(arg)]; [ExternalError] is whatever a collaborator
    outside the sources raises (network, JSON decoding, entity code). *)
Inductive exn : Type :=
| KeyError (key : string)
| TypeError (msg : string)
| AttributeError (attr : string)
| PyException (arg : json)
| ExternalError (what : string).

Definition is_key_error (e : exn) : bool :=
  match e with KeyError _ => true | _ => false end.

Fixpoint assoc_lookup (k : string) (fs : list (string * json)) : option json :=
  match fs with
  | [] => None
  | (k', v) :: fs' => if String.eqb k k' then Some v else assoc_lookup k fs'
  end.

(** [d[k]] with a string key. *)
Definition getitem (d : json) (k : string) : result json exn :=
  match d with
  | JObj fs => match assoc_lookup k fs with Some v => Ok v | None => Err (KeyError k) end
  | JArr _ => Err (TypeError "list indices must be integers or slices, not str")
  | JStr _ => Err (TypeError "string indices must be integers, not 'str'")
  | _ => Err (TypeError "object is not subscriptable")
  end.

(** [len(v)]. *)
Definition py_len (v : json) : result nat exn :=
  match v with
  | JArr xs => Ok (length xs)
  | JStr s => Ok (String.length s)
  | JObj fs => Ok (length fs)
  | _ => Err (TypeError "object has no len()")
  end.

(** The elements [for x in v] visits: list items, the characters of a
    string, the keys of a dict. *)
Definition py_iter (v : json) : result (list json) exn :=
  match v with
  | JArr xs => Ok xs
  | JStr s => Ok (map (fun c => JStr (String c EmptyString)) (list_ascii_of_string s))
  | JObj fs => Ok (map (fun kv => JStr (fst kv)) fs)
  | _ => Err (TypeError "object is not iterable")
  end.

(** [d.get(k, default)]: only dicts have [get]. *)
Definition dict_get (d : json) (k : string) (default : json) : result json exn :=
  match d with
  | JObj fs => Ok (match assoc_lookup k fs with Some v => v | None => default end)
  | _ => Err (AttributeError "get")
  end.

(** [d[k1][k2]]. *)
Definition getitem2 (d : json) (k1 k2 : string) : result json exn :=
  match getitem d k1 with
  | Ok v => getitem v k2
  | Err e => Err e
  end.

(** [str(v)] as an f-string field formats it.  Strings, [None], booleans and
    integers are exact; lists and dicts print their [repr], whose strings
    are written between single quotes with [\\], ['], newline, carriage
    return and tab escaped (Python switches to double quotes for a string
    holding a single quote and no double quote; that case is not modelled). *)
Definition repr_char (c : ascii) : string :=
  if ascii_dec c "\" then "\\"
  else if ascii_dec c "'" then "\'"
  else if ascii_dec c "010" then "\n"
  else if ascii_dec c "013" then "\r"
  else if ascii_dec c "009" then "\t"
  else String c EmptyString.

Definition repr_string (s : string) : string :=
  "'" ++ String.concat "" (map repr_char (list_ascii_of_string s)) ++ "'".

Definition z_str (z : Z) : string := NilZero.string_of_int (Z.to_int z).

Fixpoint py_repr (v : json) : string :=
  match v with
  | JNull => "None"
  | JBool true => "True"
  | JBool false => "False"
  | JNum z => z_str z
  | JStr s => repr_string s
  | JArr xs => "[" ++ String.concat ", " (map py_repr xs) ++ "]"
  | JObj fs =>
      "{" ++ String.concat ", " (map (fun kv => repr_string (fst kv) ++ ": " ++ py_repr (snd kv)) fs)
      ++ "}"
  end.

Definition py_str (v : json) : string :=
  match v with
  | JStr s => s
  | _ => py_repr v
  end.

(** ** Lemmas *)

Lemma getitem_obj fs k v : assoc_lookup k fs = Some v -> getitem (JObj fs) k = Ok v.
Proof. simpl. now intros ->. Qed.

Lemma getitem_missing fs k : assoc_lookup k fs = None -> getitem (JObj fs) k = Err (KeyError k).
Proof. simpl. now intros ->. Qed.
