(* ===== verification/Entities.v ===== *)
(** * The [ItemList] object, its collaborators, and the actions its methods use

    [src/src/itemlist.py] imports [Playlist] ([src.playlist]), [Video]
    ([src.video]), [call_youtube_api] and [find_time_slice] ([src.utils])
    and [aiohttp]; none of these is in the sources.  They are the interface
    of the orchestrator:
    - [EntityKinds] names what the entities compute on their own (the
      durations of a playlist, the figures of a video);
    - [Playlist] and [Video] are the entity records with the fields the
      orchestrator passes to the constructors and assigns afterwards
      (spec, section 6: [Playlist(id, speed, rangeStart?, rangeEnd?, apiKey)]
      with mutable name and creator; [Video(id, rawItem, speed)]);
    - [Backend] is the world the [await]ed calls act on: the batched API, the
      search GET with [response.json()], [Playlist.do_async_work],
      [Video]'s own computation, the entities' [get_output_string] and the
      clock of [find_time_slice].
    The theorems of the later files hold for every [Backend].

    The object is the record [ItemList] (the attributes set in [__init__],
    lines 13-27).  [playlist_ids] and [video_ids] hold strings after
    [__init__] and entities after resolution, as the Python lists do; their
    elements are [pyobj].  A method body is a [PyM] computation on [St]: the
    object, the world, the log written by [logging.error], and the trace of
    the external calls in the order they are issued. *)

From Stdlib Require Import String List ZArith QArith Lia.
From S2P Require Import Prelude PyJson.
Import ListNotations.
Local Open Scope string_scope.

Class EntityKinds : Type := {
  playlist_stats : Type;   (** what [Playlist.do_async_work] computes *)
  video_stats : Type       (** what [Video.__init__] computes from its item *)
}.

Section Entities.
Context `{EntityKinds}.

Record Playlist : Type := mkPlaylist {
  playlist_id : string;
  pl_custom_speed : option Q;
  pl_start_range : option Z;
  pl_end_range : option Z;
  pl_youtube_api : option string;
  playlist_name : option json;      (** [None]: attribute not assigned *)
  playlist_creator : option json;
  pl_stats : option playlist_stats  (** [None] until [do_async_work] ran *)
}.

Record Video : Type := mkVideo {
  video_id : string;
  video_item : json;
  video_custom_speed : option Q;
  video_figures : video_stats
}.

(** An element of [self.playlist_ids] or [self.video_ids]. *)
Inductive pyobj : Type :=
| PStr (s : string)
| PPlaylist (p : Playlist)
| PVideo (v : Video).

(** One [{"id": ..., "title": ..., "channel": ...}] of
    [self.similar_playlists]. *)
Record similar : Type := mkSimilar {
  sim_id : json;
  sim_title : json;
  sim_channel : json
}.

Record ItemList : Type := mkItemList {
  input_string : string;
  start_range : option Z;
  end_range : option Z;
  custom_speed : option Q;
  youtube_api : option string;
  playlist_ids : list pyobj;
  video_ids : list pyobj;
  similar_playlists : list similar
}.

Definition set_playlist_ids (l : list pyobj) (o : ItemList) : ItemList :=
  {| input_string := input_string o; start_range := start_range o;
     end_range := end_range o; custom_speed := custom_speed o;
     youtube_api := youtube_api o; playlist_ids := l; video_ids := video_ids o;
     similar_playlists := similar_playlists o |}.

Definition set_video_ids (l : list pyobj) (o : ItemList) : ItemList :=
  {| input_string := input_string o; start_range := start_range o;
     end_range := end_range o; custom_speed := custom_speed o;
     youtube_api := youtube_api o; playlist_ids := playlist_ids o; video_ids := l;
     similar_playlists := similar_playlists o |}.

Definition set_similar (l : list similar) (o : ItemList) : ItemList :=
  {| input_string := input_string o; start_range := start_range o;
     end_range := end_range o; custom_speed := custom_speed o;
     youtube_api := youtube_api o; playlist_ids := playlist_ids o;
     video_ids := video_ids o; similar_playlists := l |}.

(** What [logging.error] receives. *)
Inductive log_entry : Type :=
| LogTimeSlice (s : string)          (** [find_time_slice()] *)
| LogApiKey (k : option string)      (** [self.youtube_api] *)
| LogResponse (r : json)             (** [results] *)
| LogSimilarError (pid : string) (e : exn).
    (** [f"Error fetching similar playlists for {playlist.playlist_id}: {e}"] *)

(** The external calls, in issue order. *)
Inductive ext_call : Type :=
| CallBatch (kind : string) (ids : list pyobj)  (** [await call_youtube_api(kind, ...)] *)
| CallWork (pid : string)                       (** [await playlist.do_async_work()] *)
| CallSearch (q : json).                        (** [session.get(search_url, q=...)] *)
End Entities.

Class Backend `{EntityKinds} : Type := {
  world : Type;
  call_youtube_api : string -> option string -> list pyobj -> world -> world * result json exn;
  http_get_json : string -> list (string * json) -> world -> world * result json exn;
  playlist_do_async_work : Playlist -> world -> world * result playlist_stats exn;
  video_compute : string -> json -> option Q -> result video_stats exn;
  playlist_output : Playlist -> string;
  video_output : Video -> string;
  find_time_slice : world -> string
}.

Section Actions.
Context `{B : Backend}.

Record St : Type := mkSt {
  obj : ItemList;
  wld : world;
  log : list log_entry;
  trace : list ext_call
}.

Definition M (A : Type) : Type := PyM St exn A.

Definition with_obj (f : ItemList -> ItemList) (s : St) : St :=
  {| obj := f (obj s); wld := wld s; log := log s; trace := trace s |}.

Definition lift {A} (r : result A exn) : M A :=
  match r with Ok a => ret a | Err e => raise e end.

Definition get_self : M ItemList := gets obj.

Definition update_self (f : ItemList -> ItemList) : M unit := modify (with_obj f).

Definition log_error (e : log_entry) : M unit :=
  modify (fun s => {| obj := obj s; wld := wld s; log := log s ++ [e]; trace := trace s |}).

(** Issue an external call: record it in the trace, then run it on the world. *)
Definition external {A} (c : ext_call) (f : world -> world * result A exn) : M A :=
  fun s =>
    let '(w', r) := f (wld s) in
    ({| obj := obj s; wld := w'; log := log s; trace := trace s ++ [c] |}, r).

Definition time_slice : M string := gets (fun s => find_time_slice (wld s)).

(** ** The frame of an action

    [frame k s s']: the object is unchanged and at most [k] external calls
    were appended to the trace.  It is graded, so [within frame k m] composes
    through the monad (Prelude). *)
Definition frame (k : nat) (s s' : St) : Prop :=
  obj s' = obj s /\ exists l, trace s' = (trace s ++ l)%list /\ (length l <= k)%nat.

#[export] Instance frame_graded : Graded frame.
Proof.
  split.
  - intros s. split; [reflexivity|]. exists []. rewrite app_nil_r. auto.
  - intros k j s1 s2 s3 [Ho1 (l1 & Ht1 & Hl1)] [Ho2 (l2 & Ht2 & Hl2)].
    split; [congruence|]. exists (l1 ++ l2)%list.
    rewrite Ht2, Ht1, app_assoc, length_app. split; [reflexivity | lia].
  - intros k k' s s' Hk [Ho (l & Ht & Hl)]. split; [exact Ho|]. exists l. split; [exact Ht | lia].
Qed.

Lemma frame_external {A} c (f : world -> world * result A exn) : within frame 1 (external c f).
Proof.
  constructor. intros s. unfold external. destruct (f (wld s)) as [w' r]. simpl.
  split; [reflexivity|]. exists [c]. auto.
Qed.

Lemma frame_gets {A} (f : St -> A) : within frame 0 (gets (E := exn) f).
Proof. constructor. intros s. apply graded_refl. Qed.

Lemma frame_lift {A} (r : result A exn) : within frame 0 (lift r).
Proof. destruct r; [apply within_ret | apply within_raise]; exact _. Qed.

Lemma frame_log_error e : within frame 0 (log_error e).
Proof. constructor. intros s. split; [reflexivity|]. exists []. rewrite app_nil_r. auto. Qed.

Lemma frame_get_self : within frame 0 get_self.
Proof. apply frame_gets. Qed.

Lemma frame_time_slice : within frame 0 time_slice.
Proof. apply frame_gets. Qed.
End Actions.

#[export] Hint Resolve frame_external frame_gets frame_lift frame_log_error frame_get_self
  frame_time_slice frame_graded : itemlist.

(** Prove [within frame n m] from the frames of [m]'s parts, then check the
    count. *)
Ltac frame_auto :=
  eapply (within_mono frame); [| solve [eauto 30 with itemlist] ]; simpl; lia.

(** ** Tactics for running method bodies symbolically *)

(** Unfold the monad and the primitive actions. *)
Ltac py_unfold :=
  unfold external, get_self, time_slice, log_error, update_self, lift, bind, ret,
    raise, gets, modify, try_except, with_obj in *.

(** Reduce, keeping the JSON operations and list functions folded. *)
Ltac py_step := cbn -[getitem getitem2 py_len py_iter app combine] in *.

(** Run a body whose external calls and JSON look-ups are given by
    hypotheses [H : f args = result]. *)
Ltac py_run :=
  py_unfold; py_step;
  repeat (match goal with
          | H : ?x = _ |- context [?x] => progress rewrite H; py_step
          end).

(** Split a method body on every outcome of its steps. *)
Ltac py_cases :=
  repeat (py_step; match goal with
  | |- context [match ?x with Ok _ => _ | Err _ => _ end] => destruct x eqn:?
  | |- context [let (_, _) := ?x in _] => destruct x eqn:?
  | |- context [if ?b then _ else _] => destruct b
  end).

(** Replace the hypothesis [H : m s1 = r] by the frame of [m] at [s1]. *)
Ltac use_frame H m s1 lemma :=
  let F := fresh "F" in
  pose proof (within_run _ _ _ s1 lemma) as F; rewrite H in F; clear H;
  destruct F as [?Fo (?l & ?Ft & ?Fl)].

(** ** A scripted backend

    The world is the queue of answers the network will give, in order; the
    entities compute nothing of interest.  It makes the model run on
    concrete inputs. *)
Definition scripted_kinds : EntityKinds := {|
  playlist_stats := nat;
  video_stats := unit
|}.

Definition pop_answer (w : list (result json exn)) : list (result json exn) * result json exn :=
  match w with
  | r :: w' => (w', r)
  | [] => ([], Err (ExternalError "no answer"))
  end.

#[local] Existing Instance scripted_kinds.

Definition scripted_backend : @Backend scripted_kinds := {|
  world := list (result json exn);
  call_youtube_api := fun _ _ _ w => pop_answer w;
  http_get_json := fun _ _ w => pop_answer w;
  playlist_do_async_work := fun p w => (w, Ok (String.length (playlist_id p)));
  video_compute := fun _ _ _ => Ok tt;
  playlist_output := fun p => playlist_id p;
  video_output := fun v => video_id v;
  find_time_slice := fun _ => "2024-01-01T00:00"
|}.
