(* ===== verification/MetadataResolver.v ===== *)
(** * MetadataResolver: [populate_playlist_names] and [populate_video_names]
    ([src/src/itemlist.py], lines 86-134)

    The playlist phase makes one batched call, returns early with an empty
    list when the response has no items, turns a response without ["items"]
    into [Exception(results["error"]["message"])] after logging three lines,
    and otherwise builds one [Playlist] per [(id, item)] of
    [zip(self.playlist_ids, results["items"])]: the first with the range
    window, all with the speed, each awaited through [do_async_work] before
    its name and creator are read from the item.  The video phase makes one
    batched call and builds one [Video] per pair, with no early return and no
    handler.  Both assign the attribute only after the loop. *)

From Stdlib Require Import String List ZArith QArith Bool Lia.
From S2P Require Import Prelude PyJson Entities.
Import ListNotations.
Local Open Scope nat_scope.
Local Open Scope string_scope.
Local Open Scope py_scope.

Section Resolver.
Context {K : EntityKinds} {B : Backend}.

(** The record [new_playlist] builds for a string id. *)
Definition new_playlist_of (o : ItemList) (s : string) (first : bool) : Playlist :=
  {| playlist_id := s; pl_custom_speed := custom_speed o;
     pl_start_range := if first then start_range o else None;
     pl_end_range := if first then end_range o else None;
     pl_youtube_api := youtube_api o;
     playlist_name := None; playlist_creator := None; pl_stats := None |}.

(** [Playlist(id, custom_speed=..., start_range=..., end_range=...,
    youtube_api=...)] when [first], else [Playlist(id, custom_speed=...,
    youtube_api=...)], whose range arguments default to [None].  The ids
    are the strings [__init__] stored; a non-string element would be passed
    to the external constructor, whose behaviour on it is not known: the
    model raises [TypeError] there ([init_ids_strings] in [Pipeline] shows
    that [do_async_work] never reaches that case). *)
Definition new_playlist (o : ItemList) (id : pyobj) (first : bool) : result Playlist exn :=
  match id with
  | PStr s => Ok (new_playlist_of o s first)
  | _ => Err (TypeError "playlist id is not a str")
  end.

Definition with_stats (p : Playlist) (st : playlist_stats) : Playlist :=
  {| playlist_id := playlist_id p; pl_custom_speed := pl_custom_speed p;
     pl_start_range := pl_start_range p; pl_end_range := pl_end_range p;
     pl_youtube_api := pl_youtube_api p; playlist_name := playlist_name p;
     playlist_creator := playlist_creator p; pl_stats := Some st |}.

Definition with_name (p : Playlist) (v : json) : Playlist :=
  {| playlist_id := playlist_id p; pl_custom_speed := pl_custom_speed p;
     pl_start_range := pl_start_range p; pl_end_range := pl_end_range p;
     pl_youtube_api := pl_youtube_api p; playlist_name := Some v;
     playlist_creator := playlist_creator p; pl_stats := pl_stats p |}.

Definition with_creator (p : Playlist) (v : json) : Playlist :=
  {| playlist_id := playlist_id p; pl_custom_speed := pl_custom_speed p;
     pl_start_range := pl_start_range p; pl_end_range := pl_end_range p;
     pl_youtube_api := pl_youtube_api p; playlist_name := playlist_name p;
     playlist_creator := Some v; pl_stats := pl_stats p |}.

(** [await playlist.do_async_work()]. *)
Definition await_work (p : Playlist) : M Playlist :=
  let* st := external (CallWork (playlist_id p)) (playlist_do_async_work p) in
  ret (with_stats p st).

(** The loop of lines 102-121; [refined] is [refined_list]. *)
Fixpoint resolve_playlists (pairs : list (pyobj * json)) (refined : list Playlist)
  : M (list Playlist) :=
  match pairs with
  | [] => ret refined
  | (id, data) :: rest =>
      let* o := get_self in
      let* playlist := lift (new_playlist o id (Nat.eqb (length refined) 0)) in
      let* playlist := await_work playlist in
      let* title := lift (getitem2 data "snippet" "title") in
      let playlist := with_name playlist title in
      let* creator := lift (getitem2 data "snippet" "channelTitle") in
      let playlist := with_creator playlist creator in
      resolve_playlists rest (refined ++ [playlist])
  end.

(** [except KeyError:] of lines 96-100. *)
Definition playlist_error_handler (results : json) (e : exn) : M bool :=
  if is_key_error e then
    let* t := time_slice in
    let* _ := log_error (LogTimeSlice t) in
    let* o := get_self in
    let* _ := log_error (LogApiKey (youtube_api o)) in
    let* _ := log_error (LogResponse results) in
    let* msg := lift (getitem2 results "error" "message") in
    raise (PyException msg)
  else raise e.

Definition populate_playlist_names : M unit :=
  let* o := get_self in
  let* results := external (CallBatch "playlists" (playlist_ids o))
                    (call_youtube_api "playlists" (youtube_api o) (playlist_ids o)) in
  let* empty := try_except
                  (let* items := lift (getitem results "items") in
                   let* n := lift (py_len items) in
                   ret (Nat.eqb n 0))
                  (playlist_error_handler results) in
  if empty then update_self (set_playlist_ids [])
  else
    let* items := lift (getitem results "items") in
    let* items := lift (py_iter items) in
    let* o := get_self in
    let* refined := resolve_playlists (combine (playlist_ids o) items) [] in
    update_self (set_playlist_ids (map PPlaylist refined)).

(** [Video(id, data, custom_speed=self.custom_speed)]. *)
Definition new_video (o : ItemList) (id : pyobj) (data : json) : result Video exn :=
  match id with
  | PStr s =>
      match video_compute s data (custom_speed o) with
      | Ok fig => Ok {| video_id := s; video_item := data;
                        video_custom_speed := custom_speed o; video_figures := fig |}
      | Err e => Err e
      end
  | _ => Err (TypeError "video id is not a str")
  end.

Fixpoint resolve_videos (o : ItemList) (pairs : list (pyobj * json)) : result (list Video) exn :=
  match pairs with
  | [] => Ok []
  | (id, data) :: rest =>
      match new_video o id data with
      | Ok v => match resolve_videos o rest with
                | Ok vs => Ok (v :: vs)
                | Err e => Err e
                end
      | Err e => Err e
      end
  end.

Definition populate_video_names : M unit :=
  let* o := get_self in
  let* results := external (CallBatch "videos" (video_ids o))
                    (call_youtube_api "videos" (youtube_api o) (video_ids o)) in
  let* items := lift (getitem results "items") in
  let* items := lift (py_iter items) in
  let* refined := lift (resolve_videos o (combine (video_ids o) items)) in
  update_self (set_video_ids (map PVideo refined)).

(** ** What the playlist loop builds *)

(** The entity built from the [k]-th pair [(id, data)] of the [zip]: its id
    is [id], it carries the speed and the key, the range window only when
    [k = 0], the title and channel of [data], and the result of its
    [do_async_work]. *)
Definition built_from (o : ItemList) (k : nat) (id : pyobj) (data : json) (p : Playlist)
  : Prop :=
  id = PStr (playlist_id p)
  /\ pl_custom_speed p = custom_speed o /\ pl_youtube_api p = youtube_api o
  /\ pl_start_range p = (if Nat.eqb k 0 then start_range o else None)
  /\ pl_end_range p = (if Nat.eqb k 0 then end_range o else None)
  /\ (exists t, playlist_name p = Some t /\ getitem2 data "snippet" "title" = Ok t)
  /\ (exists c, playlist_creator p = Some c /\ getitem2 data "snippet" "channelTitle" = Ok c)
  /\ pl_stats p <> None.

Fixpoint built_list (o : ItemList) (k : nat) (pairs : list (pyobj * json)) (ps : list Playlist)
  : Prop :=
  match pairs, ps with
  | [], [] => True
  | (id, data) :: pairs', p :: ps' => built_from o k id data p /\ built_list o (S k) pairs' ps'
  | _, _ => False
  end.

Lemma resolve_playlists_spec pairs refined s s' ps :
  resolve_playlists pairs refined s = (s', Ok ps) ->
  exists fresh, ps = (refined ++ fresh)%list
    /\ obj s' = obj s /\ log s' = log s
    /\ trace s' = (trace s ++ map (fun p => CallWork (playlist_id p)) fresh)%list
    /\ built_list (obj s) (length refined) pairs fresh.
Proof.
  revert refined s. induction pairs as [|[id data] pairs IH]; intros refined s Hrun.
  - cbn in Hrun. injection Hrun as <- <-. exists []. rewrite !app_nil_r. repeat split.
  - cbn [resolve_playlists] in Hrun. unfold await_work in Hrun. py_unfold. py_step.
    destruct (new_playlist (obj s) id _) as [p|e] eqn:Enew; py_step; [|discriminate].
    destruct (playlist_do_async_work p (wld s)) as [w2 [st|e]] eqn:Ew; py_step; [|discriminate].
    destruct (getitem2 data "snippet" "title") as [t|e] eqn:Et; py_step; [|discriminate].
    destruct (getitem2 data "snippet" "channelTitle") as [c|e] eqn:Ec; py_step; [|discriminate].
    apply IH in Hrun as (fresh & -> & Hobj & Hlog & Htr & Hb). simpl in Hobj, Hlog, Htr, Hb.
    assert (Hbf : built_from (obj s) (length refined) id data
                    (with_creator (with_name (with_stats p st) t) c)).
    { destruct id as [sid| |]; simpl in Enew; try discriminate. injection Enew as <-.
      repeat split; simpl; eauto. discriminate. }
    rewrite length_app, Nat.add_1_r in Hb.
    exists (with_creator (with_name (with_stats p st) t) c :: fresh).
    split; [now rewrite <- app_assoc|]. split; [exact Hobj|]. split; [exact Hlog|].
    split; [rewrite Htr, <- app_assoc; reflexivity|]. split; [exact Hbf | exact Hb].
Qed.

Lemma resolve_playlists_ok pairs refined s :
  (forall id data, In (id, data) pairs ->
     (exists sid, id = PStr sid)
     /\ (exists t, getitem2 data "snippet" "title" = Ok t)
     /\ (exists c, getitem2 data "snippet" "channelTitle" = Ok c)) ->
  (forall p w, exists w' st, playlist_do_async_work p w = (w', Ok st)) ->
  exists s' ps, resolve_playlists pairs refined s = (s', Ok ps).
Proof.
  intros Hp Hw. revert refined s.
  induction pairs as [|[id data] pairs IH]; intros refined s; [eexists _, _; reflexivity|].
  destruct (Hp id data (or_introl eq_refl)) as ([sid ->] & [t Ht] & [c Hc]).
  destruct (Hw (new_playlist_of (obj s) sid (Nat.eqb (length refined) 0)) (wld s))
    as (w' & st & Hst).
  cbn [resolve_playlists]. unfold await_work. py_unfold. py_step.
  rewrite Hst. py_step. rewrite Ht. py_step. rewrite Hc. py_step.
  apply IH. intros. apply Hp. now right.
Qed.

Lemma resolve_videos_spec o pairs vs :
  resolve_videos o pairs = Ok vs ->
  Forall2 (fun '(id, data) v => id = PStr (video_id v) /\ video_item v = data
                                /\ video_custom_speed v = custom_speed o) pairs vs.
Proof.
  revert vs. induction pairs as [|[id data] pairs IH]; intros vs H; simpl in H.
  - injection H as <-. constructor.
  - destruct (new_video o id data) as [v|e] eqn:Ev; [|discriminate].
    destruct (resolve_videos o pairs) as [vs'|e]; [|discriminate]. injection H as <-.
    constructor; [|now apply IH].
    destruct id as [sid| |]; simpl in Ev; try discriminate.
    destruct (video_compute sid data (custom_speed o)); [|discriminate].
    injection Ev as <-. repeat split.
Qed.

(** ** Frames: the loop and the handler leave the object alone *)

(** The loop issues one call per pair (the awaited [do_async_work]) and
    does not touch the object, whatever its outcome. *)
Lemma resolve_playlists_frame pairs refined :
  within frame (length pairs) (resolve_playlists pairs refined).
Proof.
  revert refined. induction pairs as [|[id data] pairs IH]; intros refined;
    cbn [resolve_playlists]; unfold await_work; frame_auto.
Qed.

Lemma playlist_error_handler_frame results e : within frame 0 (playlist_error_handler results e).
Proof. unfold playlist_error_handler. destruct (is_key_error e); frame_auto. Qed.

Lemma built_list_length o k pairs ps : built_list o k pairs ps -> length ps = length pairs.
Proof.
  revert k ps. induction pairs as [|[id data] pairs IH]; intros k [|p ps] Hb;
    simpl in Hb; try contradiction; simpl; [reflexivity|]. f_equal. eapply IH, Hb.
Qed.

Lemma resolve_playlists_length pairs refined s s' ps :
  resolve_playlists pairs refined s = (s', Ok ps) -> length ps = length refined + length pairs.
Proof.
  intros (fresh & -> & _ & _ & _ & Hb)%resolve_playlists_spec.
  rewrite length_app. apply built_list_length in Hb. lia.
Qed.

(** Close the goals of the phase frames below: the calls appended, the
    length of the list assigned, the object on an exception. *)
Ltac close_phase_frame :=
  intros [= <- <-]; simpl in *;
  rewrite ?length_map, ?length_combine in *;
  repeat match goal with H : obj ?x = obj _ |- _ => is_var x; rewrite H in * end;
  split; [ | split; [ | intros ? Heq; first [discriminate Heq | congruence] ] ];
  try lia;
  eexists; split;
    [repeat match goal with H : trace ?x = _ |- context [trace ?x] => is_var x; rewrite H end;
     simpl; rewrite <- ?app_assoc; reflexivity | ];
  simpl; rewrite ?length_app; simpl; lia.

(** Whatever its outcome, the playlist phase issues at most one call per
    requested id besides the batch, never lengthens [playlist_ids], and
    leaves the object unchanged when it raises: the attribute is assigned
    only after the loop. *)
Lemma populate_playlist_names_frame s s' r :
  populate_playlist_names s = (s', r) ->
  (exists l, trace s' = (trace s ++ l)%list /\ length l <= 1 + length (playlist_ids (obj s)))
  /\ length (playlist_ids (obj s')) <= length (playlist_ids (obj s))
  /\ (forall e, r = Err e -> obj s' = obj s).
Proof.
  unfold populate_playlist_names. py_unfold. py_step.
  destruct (call_youtube_api _ _ _ _) as [w1 r1]. py_cases.
  all: repeat match goal with
  | H : resolve_playlists ?p ?r ?s1 = (_, Ok _) |- _ =>
      pose proof (resolve_playlists_length _ _ _ _ _ H);
      use_frame H (resolve_playlists p r) s1 (resolve_playlists_frame p r)
  | H : resolve_playlists ?p ?r ?s1 = _ |- _ =>
      use_frame H (resolve_playlists p r) s1 (resolve_playlists_frame p r)
  | H : playlist_error_handler ?r ?e ?s1 = _ |- _ =>
      use_frame H (playlist_error_handler r e) s1 (playlist_error_handler_frame r e)
  end.
  all: close_phase_frame.
Qed.

(** The video phase issues one call, never changes [playlist_ids], and
    leaves the object unchanged when it raises. *)
Lemma populate_video_names_frame s s' r :
  populate_video_names s = (s', r) ->
  (exists l, trace s' = (trace s ++ l)%list /\ length l <= 1)
  /\ playlist_ids (obj s') = playlist_ids (obj s)
  /\ (forall e, r = Err e -> obj s' = obj s).
Proof.
  unfold populate_video_names. py_unfold. py_step.
  destruct (call_youtube_api _ _ _ _) as [w1 r1]. py_cases.
  all: intros [= <- <-]; simpl.
  all: split; [eexists; split; [reflexivity | simpl; lia] |].
  all: split; [reflexivity | intros ? Heq; first [discriminate Heq | reflexivity]].
Qed.

(** ** Properties of the playlist phase *)

(** C12: when the batched response has zero items, [playlist_ids] becomes
    empty, however many ids were requested; nothing else is called and
    nothing is logged. *)
Theorem populate_playlist_names_empty s w1 r items :
  call_youtube_api "playlists" (youtube_api (obj s)) (playlist_ids (obj s)) (wld s) = (w1, Ok r) ->
  getitem r "items" = Ok items -> py_len items = Ok 0 ->
  populate_playlist_names s =
    ({| obj := set_playlist_ids [] (obj s); wld := w1; log := log s;
        trace := (trace s ++ [CallBatch "playlists" (playlist_ids (obj s))])%list |}, Ok tt).
Proof. intros H1 H2 H3. unfold populate_playlist_names. py_run. reflexivity. Qed.

(** C13: a response without ["items"] (an upstream error payload) logs the
    time slice, the key and the response, in that order, and raises
    [Exception] with [results["error"]["message"]]; [playlist_ids] is left
    as it was. *)
Theorem populate_playlist_names_api_error s w1 r msg :
  call_youtube_api "playlists" (youtube_api (obj s)) (playlist_ids (obj s)) (wld s) = (w1, Ok r) ->
  getitem r "items" = Err (KeyError "items") ->
  getitem2 r "error" "message" = Ok msg ->
  populate_playlist_names s =
    ({| obj := obj s; wld := w1;
        log := (log s ++ [LogTimeSlice (find_time_slice w1); LogApiKey (youtube_api (obj s));
                          LogResponse r])%list;
        trace := (trace s ++ [CallBatch "playlists" (playlist_ids (obj s))])%list |},
     Err (PyException msg)).
Proof.
  intros H1 H2 H3. unfold populate_playlist_names, playlist_error_handler. py_run.
  now rewrite <- !app_assoc.
Qed.

(** A successful playlist phase on a response with items is the loop on
    [zip(playlist_ids, items)] followed by the assignment. *)
Lemma populate_playlist_names_loop s s' w1 r items n xs :
  call_youtube_api "playlists" (youtube_api (obj s)) (playlist_ids (obj s)) (wld s) = (w1, Ok r) ->
  getitem r "items" = Ok items -> py_len items = Ok n -> n <> 0 -> py_iter items = Ok xs ->
  populate_playlist_names s = (s', Ok tt) ->
  exists s2 ps,
    resolve_playlists (combine (playlist_ids (obj s)) xs) []
      {| obj := obj s; wld := w1; log := log s;
         trace := (trace s ++ [CallBatch "playlists" (playlist_ids (obj s))])%list |} = (s2, Ok ps)
    /\ s' = with_obj (set_playlist_ids (map PPlaylist ps)) s2.
Proof.
  intros H1 H2 H3 Hn H4 Hrun. unfold populate_playlist_names in Hrun. py_unfold. py_step.
  rewrite H1 in Hrun. py_step. rewrite H2, H3 in Hrun. py_step.
  rewrite (proj2 (Nat.eqb_neq n 0) Hn), H4 in Hrun. py_step.
  destruct (resolve_playlists _ [] _) as [s2 [ps|e]] eqn:Er; [|discriminate].
  injection Hrun as <-. eauto.
Qed.

(** C14: when the playlist phase succeeds on a non-empty response,
    [playlist_ids] holds one entity per pair of
    [zip(playlist_ids, items)], in order: entity [k] has the [k]-th id, the
    title and channel of the [k]-th item, the speed and the key, and the
    range window only for [k = 0]; each entity's [do_async_work] was awaited,
    in order, after the batched call. *)
Theorem populate_playlist_names_entities s s' w1 r items n xs :
  call_youtube_api "playlists" (youtube_api (obj s)) (playlist_ids (obj s)) (wld s) = (w1, Ok r) ->
  getitem r "items" = Ok items -> py_len items = Ok n -> n <> 0 -> py_iter items = Ok xs ->
  populate_playlist_names s = (s', Ok tt) ->
  exists ps, playlist_ids (obj s') = map PPlaylist ps
    /\ built_list (obj s) 0 (combine (playlist_ids (obj s)) xs) ps
    /\ log s' = log s
    /\ trace s' = (trace s ++ CallBatch "playlists" (playlist_ids (obj s))
                             :: map (fun p => CallWork (playlist_id p)) ps)%list.
Proof.
  intros H1 H2 H3 Hn H4 Hrun.
  destruct (populate_playlist_names_loop _ _ _ _ _ _ _ H1 H2 H3 Hn H4 Hrun) as (s2 & ps & Er & ->).
  apply resolve_playlists_spec in Er as (fresh & -> & Hobj & Hlog & Htr & Hb).
  simpl in *. exists fresh. split; [reflexivity|]. split; [exact Hb|]. split; [exact Hlog|].
  rewrite Htr, <- app_assoc. reflexivity.
Qed.

(** C32: [zip] truncates: after a successful playlist phase on a response
    with items, [playlist_ids] holds exactly min(number of requested ids,
    number of items) entities, so an id is dropped for every missing item. *)
Theorem populate_playlist_names_count s s' w1 r items n xs :
  call_youtube_api "playlists" (youtube_api (obj s)) (playlist_ids (obj s)) (wld s) = (w1, Ok r) ->
  getitem r "items" = Ok items -> py_len items = Ok n -> n <> 0 -> py_iter items = Ok xs ->
  populate_playlist_names s = (s', Ok tt) ->
  length (playlist_ids (obj s')) = Nat.min (length (playlist_ids (obj s))) (length xs).
Proof.
  intros H1 H2 H3 Hn H4 Hrun.
  destruct (populate_playlist_names_loop _ _ _ _ _ _ _ H1 H2 H3 Hn H4 Hrun) as (s2 & ps & Er & ->).
  apply resolve_playlists_length in Er. simpl. now rewrite length_map, Er, length_combine.
Qed.

(** C15: the playlist phase does not fail when its collaborators do not:
    the batched call answers with items, the ids are strings, every item
    has a title and a channel, and every [do_async_work] succeeds. *)
Theorem populate_playlist_names_succeeds s w1 r items n xs :
  call_youtube_api "playlists" (youtube_api (obj s)) (playlist_ids (obj s)) (wld s) = (w1, Ok r) ->
  getitem r "items" = Ok items -> py_len items = Ok n -> py_iter items = Ok xs ->
  Forall (fun id => exists sid, id = PStr sid) (playlist_ids (obj s)) ->
  Forall (fun data => (exists t, getitem2 data "snippet" "title" = Ok t)
                      /\ (exists c, getitem2 data "snippet" "channelTitle" = Ok c)) xs ->
  (forall p w, exists w' st, playlist_do_async_work p w = (w', Ok st)) ->
  exists s', populate_playlist_names s = (s', Ok tt).
Proof.
  intros H1 H2 H3 H4 Hids Hxs Hw. unfold populate_playlist_names. py_run.
  destruct (Nat.eqb n 0); [eexists; reflexivity|]. py_step.
  edestruct resolve_playlists_ok as (s2 & ps & Er); [|exact Hw|].
  - intros id data Hin. rewrite Forall_forall in Hids, Hxs.
    split; [apply Hids; eapply in_combine_l; eauto|].
    apply Hxs. eapply in_combine_r; eauto.
  - rewrite Er. eexists. reflexivity.
Qed.

(** ** Properties of the video phase *)

(** C16: the video phase has no handler: a batched response without
    ["items"] (an upstream error payload) raises [KeyError('items')] out of
    [populate_video_names], and [video_ids] is left as it was. *)
Theorem populate_video_names_missing_items s w1 r :
  call_youtube_api "videos" (youtube_api (obj s)) (video_ids (obj s)) (wld s) = (w1, Ok r) ->
  getitem r "items" = Err (KeyError "items") ->
  populate_video_names s =
    ({| obj := obj s; wld := w1; log := log s;
        trace := (trace s ++ [CallBatch "videos" (video_ids (obj s))])%list |},
     Err (KeyError "items")).
Proof. intros H1 H2. unfold populate_video_names. py_run. reflexivity. Qed.

(** C17: when the video phase succeeds, [video_ids] holds one [Video] per
    pair of [zip(video_ids, items)], in order, built from the id, the raw
    item and the speed. *)
Theorem populate_video_names_entities s s' w1 r items xs :
  call_youtube_api "videos" (youtube_api (obj s)) (video_ids (obj s)) (wld s) = (w1, Ok r) ->
  getitem r "items" = Ok items -> py_iter items = Ok xs ->
  populate_video_names s = (s', Ok tt) ->
  exists vs, video_ids (obj s') = map PVideo vs
    /\ Forall2 (fun '(id, data) v => id = PStr (video_id v) /\ video_item v = data
                                     /\ video_custom_speed v = custom_speed (obj s))
               (combine (video_ids (obj s)) xs) vs
    /\ playlist_ids (obj s') = playlist_ids (obj s).
Proof.
  intros H1 H2 H3 Hrun. unfold populate_video_names in Hrun. py_unfold. py_step.
  rewrite H1 in Hrun. py_step. rewrite H2, H3 in Hrun. py_step.
  destruct (resolve_videos (obj s) _) as [vs|e] eqn:Ev; py_step; [|discriminate].
  injection Hrun as <-. exists vs. simpl. repeat split; auto. now apply resolve_videos_spec.
Qed.
End Resolver.

(** ** Runs on the scripted backend *)

#[local] Existing Instance scripted_kinds.
#[local] Existing Instance scripted_backend.

Definition demo_item (t c : string) : json :=
  JObj [("snippet", JObj [("title", JStr t); ("channelTitle", JStr c)])].

Definition demo_obj : ItemList :=
  mkItemList "" (Some 2%Z) (Some 5%Z) None (Some "KEY")
             [PStr "A"; PStr "B"; PStr "C"] [PStr "v1"] [].

Definition demo_state (answers : list (result json exn)) : St := mkSt demo_obj answers [] [].

Definition demo_items : json := JObj [("items", JArr [demo_item "tA" "cA"; demo_item "tC" "cC"])].

Lemma populate_playlist_names_empty_witness :
  populate_playlist_names (demo_state [Ok (JObj [("items", JArr [])])])
  = ({| obj := set_playlist_ids [] demo_obj; wld := []; log := [];
        trace := ([] ++ [CallBatch "playlists" (playlist_ids demo_obj)])%list |}, Ok tt).
Proof. apply (@populate_playlist_names_empty _ scripted_backend
           (demo_state [Ok (JObj [("items", JArr [])])]) [] (JObj [("items", JArr [])]) (JArr [])); reflexivity. Defined.

Lemma populate_playlist_names_api_error_witness :
  populate_playlist_names (demo_state [Ok (JObj [("error", JObj [("message", JStr "quota")])])])
  = ({| obj := demo_obj; wld := [];
        log := ([] ++ [LogTimeSlice "2024-01-01T00:00"; LogApiKey (Some "KEY");
                       LogResponse (JObj [("error", JObj [("message", JStr "quota")])])])%list;
        trace := ([] ++ [CallBatch "playlists" (playlist_ids demo_obj)])%list |},
     Err (PyException (JStr "quota"))).
Proof. apply (@populate_playlist_names_api_error _ scripted_backend
           (demo_state [Ok (JObj [("error", JObj [("message", JStr "quota")])])]) []
           (JObj [("error", JObj [("message", JStr "quota")])])); reflexivity. Defined.

Lemma populate_playlist_names_entities_witness :
  let s := demo_state [Ok demo_items] in
  let s' := fst (populate_playlist_names s) in
  exists ps, playlist_ids (obj s') = map PPlaylist ps
    /\ built_list (obj s) 0 (combine (playlist_ids (obj s)) [demo_item "tA" "cA"; demo_item "tC" "cC"]) ps
    /\ log s' = log s
    /\ trace s' = (trace s ++ CallBatch "playlists" (playlist_ids (obj s))
                             :: map (fun p => CallWork (playlist_id p)) ps)%list.
Proof.
  intros s s'. apply (@populate_playlist_names_entities _ scripted_backend s s' [] demo_items
                        (JArr [demo_item "tA" "cA"; demo_item "tC" "cC"]) 2);
    first [reflexivity | lia | vm_compute; reflexivity].
Defined.

Lemma populate_playlist_names_count_witness :
  let s := demo_state [Ok demo_items] in
  length (playlist_ids (obj (fst (populate_playlist_names s))))
  = Nat.min (length (playlist_ids (obj s))) 2.
Proof.
  intros s. apply (@populate_playlist_names_count _ scripted_backend s _ [] demo_items
                     (JArr [demo_item "tA" "cA"; demo_item "tC" "cC"]) 2
                     [demo_item "tA" "cA"; demo_item "tC" "cC"]);
    first [reflexivity | lia | vm_compute; reflexivity].
Defined.

Lemma populate_playlist_names_succeeds_witness :
  exists s', populate_playlist_names (demo_state [Ok demo_items]) = (s', Ok tt).
Proof.
  apply (@populate_playlist_names_succeeds _ scripted_backend (demo_state [Ok demo_items]) [] demo_items
           (JArr [demo_item "tA" "cA"; demo_item "tC" "cC"]) 2
           [demo_item "tA" "cA"; demo_item "tC" "cC"]); try reflexivity.
  - repeat constructor; eexists; reflexivity.
  - repeat constructor; eexists; reflexivity.
  - intros p w. eexists _, _. reflexivity.
Defined.

Lemma populate_video_names_missing_items_witness :
  populate_video_names (demo_state [Ok (JObj [("error", JObj [("message", JStr "quota")])])])
  = ({| obj := demo_obj; wld := []; log := [];
        trace := ([] ++ [CallBatch "videos" (video_ids demo_obj)])%list |},
     Err (KeyError "items")).
Proof. apply (@populate_video_names_missing_items _ scripted_backend
           (demo_state [Ok (JObj [("error", JObj [("message", JStr "quota")])])]) []
           (JObj [("error", JObj [("message", JStr "quota")])])); reflexivity. Defined.

Lemma populate_video_names_entities_witness :
  let s := demo_state [Ok (JObj [("items", JArr [JObj []])])] in
  let s' := fst (populate_video_names s) in
  exists vs, video_ids (obj s') = map PVideo vs
    /\ Forall2 (fun '(id, data) v => id = PStr (video_id v) /\ video_item v = data
                                     /\ video_custom_speed v = custom_speed (obj s))
               (combine (video_ids (obj s)) [JObj []]) vs
    /\ playlist_ids (obj s') = playlist_ids (obj s).
Proof.
  intros s s'. apply (@populate_video_names_entities _ scripted_backend s s' [] (JObj [("items", JArr [JObj []])])
                        (JArr [JObj []])); reflexivity.
Defined.

