(* ===== verification/SimilarFinder.v ===== *)
(** * SimilarPlaylistFinder: [fetch_similar_playlists] and
    [call_similar_playlists_api] ([src/src/itemlist.py], lines 35-67)

    For each element of [self.playlist_ids], in order, the loop reads its
    [playlist_name], searches playlists with that title (one GET, at most 5
    results) and extends a local accumulator with the projected results;
    any exception of one iteration is caught, logged with the element's
    [playlist_id], and the loop goes on.  The accumulator is assigned to
    [self.similar_playlists] at the end.

    The spec's design note 9.4 describes this as a fold whose step catches
    its own failure; [isolated_step] and [fetch_fold] state that design on
    resolved playlists, and [fetch_loop_fold] shows that the code refines
    it. *)

From Stdlib Require Import String List ZArith QArith Bool Lia.
From S2P Require Import Prelude PyJson Entities.
Import ListNotations.
Local Open Scope nat_scope.
Local Open Scope string_scope.
Local Open Scope py_scope.

Section Similar.
Context {K : EntityKinds} {B : Backend}.

Definition search_url : string := "https://www.googleapis.com/youtube/v3/search".

(** The [params] dict of lines 49-55. *)
Definition search_params (api : option string) (playlist_title : json) : list (string * json) :=
  [("key", match api with Some k => JStr k | None => JNull end);
   ("type", JStr "playlist");
   ("part", JStr "snippet");
   ("maxResults", JNum 5);
   ("q", playlist_title)].

(** [{"id": item["id"]["playlistId"], "title": item["snippet"]["title"],
    "channel": item["snippet"]["channelTitle"]}], evaluated left to right. *)
Definition project_item (item : json) : result similar exn :=
  match getitem2 item "id" "playlistId" with
  | Err e => Err e
  | Ok i =>
      match getitem2 item "snippet" "title" with
      | Err e => Err e
      | Ok t =>
          match getitem2 item "snippet" "channelTitle" with
          | Err e => Err e
          | Ok c => Ok (mkSimilar i t c)
          end
      end
  end.

(** The list comprehension of lines 60-67. *)
Fixpoint project_items (xs : list json) : result (list similar) exn :=
  match xs with
  | [] => Ok []
  | x :: xs' =>
      match project_item x with
      | Err e => Err e
      | Ok r => match project_items xs' with
                | Err e => Err e
                | Ok rs => Ok (r :: rs)
                end
      end
  end.

Definition call_similar_playlists_api (playlist_title : json) : M (list similar) :=
  let* o := get_self in
  let* data := external (CallSearch playlist_title)
                 (http_get_json search_url (search_params (youtube_api o) playlist_title)) in
  let* items := lift (dict_get data "items" (JArr [])) in
  let* xs := lift (py_iter items) in
  lift (project_items xs).

(** [playlist.playlist_name] and [playlist.playlist_id] on an element of
    [self.playlist_ids]: only a [Playlist] with the attribute has it. *)
Definition attr_playlist_name (x : pyobj) : result json exn :=
  match x with
  | PPlaylist p => match playlist_name p with
                   | Some t => Ok t
                   | None => Err (AttributeError "playlist_name")
                   end
  | _ => Err (AttributeError "playlist_name")
  end.

Definition attr_playlist_id (x : pyobj) : result string exn :=
  match x with
  | PPlaylist p => Ok (playlist_id p)
  | _ => Err (AttributeError "playlist_id")
  end.

(** The loop of lines 37-43 on the accumulator [acc]. *)
Fixpoint fetch_loop (ps : list pyobj) (acc : list similar) : M (list similar) :=
  match ps with
  | [] => ret acc
  | playlist :: rest =>
      let* acc := try_except
                    (let* title := lift (attr_playlist_name playlist) in
                     let* results := call_similar_playlists_api title in
                     ret (acc ++ results)%list)
                    (fun e => let* pid := lift (attr_playlist_id playlist) in
                              let* _ := log_error (LogSimilarError pid e) in
                              ret acc) in
      fetch_loop rest acc
  end.

Definition fetch_similar_playlists : M unit :=
  let* o := get_self in
  let* sims := fetch_loop (playlist_ids o) [] in
  update_self (set_similar sims).

(** ** The design of the spec: a fold whose step isolates its failure *)

Definition append_log (s : St) (e : log_entry) : St :=
  {| obj := obj s; wld := wld s; log := (log s ++ [e])%list; trace := trace s |}.

(** One lookup of a resolved playlist named [t]: its results are added, or
    its failure is logged with the playlist's id and adds nothing. *)
Definition isolated_step (acc : list similar) (p : Playlist) (t : json) : M (list similar) :=
  fun s =>
    match call_similar_playlists_api t s with
    | (s', Ok rs) => (s', Ok (acc ++ rs)%list)
    | (s', Err e) => (append_log s' (LogSimilarError (playlist_id p) e), Ok acc)
    end.

Fixpoint fetch_fold (ps : list (Playlist * json)) (acc : list similar) : M (list similar) :=
  match ps with
  | [] => ret acc
  | (p, t) :: rest => bind (isolated_step acc p t) (fun acc' => fetch_fold rest acc')
  end.

(** The resolved playlists of a list: every element a [Playlist] whose name
    was assigned. *)
Definition resolved (ps : list pyobj) (named : list (Playlist * json)) : Prop :=
  ps = map (fun pt => PPlaylist (fst pt)) named
  /\ Forall (fun pt => playlist_name (fst pt) = Some (snd pt)) named.

(** The outcomes of the successive look-ups of [fetch_fold], each run on the
    state the previous one left (with the failure logged). *)
Inductive lookup_run : St -> list (Playlist * json) -> St -> list (result (list similar) exn) -> Prop :=
| lookup_nil s : lookup_run s [] s []
| lookup_cons s p t rest s1 r s2 outs :
    call_similar_playlists_api t s = (s1, r) ->
    lookup_run (match r with
                | Ok _ => s1
                | Err e => append_log s1 (LogSimilarError (playlist_id p) e)
                end) rest s2 outs ->
    lookup_run s ((p, t) :: rest) s2 (r :: outs).

Definition ok_results (r : result (list similar) exn) : list similar :=
  match r with Ok rs => rs | Err _ => [] end.

(** The log lines of the failed look-ups, in order. *)
Fixpoint failure_log (named : list (Playlist * json)) (outs : list (result (list similar) exn))
  : list log_entry :=
  match named, outs with
  | (p, _) :: named', Err e :: outs' => LogSimilarError (playlist_id p) e :: failure_log named' outs'
  | _ :: named', Ok _ :: outs' => failure_log named' outs'
  | _, _ => []
  end.

(** ** Lemmas *)

Lemma call_similar_frame t s s1 r :
  call_similar_playlists_api t s = (s1, r) ->
  obj s1 = obj s /\ log s1 = log s /\ trace s1 = (trace s ++ [CallSearch t])%list.
Proof.
  unfold call_similar_playlists_api. py_unfold. py_step.
  destruct (http_get_json _ _ _) as [w' [d|e]]; py_step; [|intros [= <- _]; auto].
  destruct (dict_get d "items" (JArr [])) as [items|e]; py_step; [|intros [= <- _]; auto].
  destruct (py_iter items) as [xs|e]; py_step; [|intros [= <- _]; auto].
  destruct (project_items xs); intros [= <- _]; auto.
Qed.

Lemma try_lookup_isolated acc p t s :
  playlist_name p = Some t ->
  try_except
    (let* title := lift (attr_playlist_name (PPlaylist p)) in
     let* results := call_similar_playlists_api title in
     ret (acc ++ results)%list)
    (fun e => let* pid := lift (attr_playlist_id (PPlaylist p)) in
              let* _ := log_error (LogSimilarError pid e) in
              ret acc) s
  = isolated_step acc p t s.
Proof.
  intros Ht. unfold isolated_step, attr_playlist_name, attr_playlist_id. rewrite Ht.
  unfold try_except, bind, lift, ret, log_error, modify.
  destruct (call_similar_playlists_api t s) as [s' [rs|e]]; reflexivity.
Qed.

Lemma fetch_loop_fold named acc s :
  Forall (fun pt => playlist_name (fst pt) = Some (snd pt)) named ->
  fetch_loop (map (fun pt => PPlaylist (fst pt)) named) acc s = fetch_fold named acc s.
Proof.
  revert acc s. induction named as [|[p t] named IH]; intros acc s Hn; [reflexivity|].
  apply Forall_cons_iff in Hn as [Ht Hn]. simpl in Ht. cbn [map fetch_loop fetch_fold fst].
  rewrite (bind_congr _ (isolated_step acc p t)) by now apply try_lookup_isolated.
  apply bind_ext. intros acc' s'. now apply IH.
Qed.

Lemma fetch_fold_run named acc s :
  exists s1 outs, lookup_run s named s1 outs
    /\ fetch_fold named acc s = (s1, Ok (acc ++ concat (map ok_results outs))%list)
    /\ obj s1 = obj s
    /\ trace s1 = (trace s ++ map (fun pt => CallSearch (snd pt)) named)%list
    /\ log s1 = (log s ++ failure_log named outs)%list.
Proof.
  revert acc s. induction named as [|[p t] named IH]; intros acc s.
  - exists s, []. simpl. rewrite !app_nil_r. repeat split. constructor.
  - cbn [fetch_fold]. unfold bind at 1, isolated_step.
    destruct (call_similar_playlists_api t s) as [s1 r] eqn:Ec.
    destruct (call_similar_frame _ _ _ _ Ec) as (Hobj & Hlog & Htr).
    destruct r as [rs|e].
    + destruct (IH (acc ++ rs)%list s1) as (s2 & outs & Hrun & Hf & Hobj2 & Htr2 & Hlog2).
      exists s2, (Ok rs :: outs). rewrite Hf. simpl in *.
      split; [econstructor; eauto|].
      rewrite Hobj2, Htr2, Hlog2, Hobj, Htr, Hlog, <- !app_assoc. repeat split.
    + destruct (IH acc (append_log s1 (LogSimilarError (playlist_id p) e)))
        as (s2 & outs & Hrun & Hf & Hobj2 & Htr2 & Hlog2).
      exists s2, (Err e :: outs). rewrite Hf. simpl in *.
      split; [econstructor; eauto|].
      rewrite Hobj2, Htr2, Hlog2, Hobj, Htr, Hlog, <- !app_assoc. repeat split.
Qed.

(** The run of [fetch_similar_playlists] on resolved playlists, through
    the fold. *)
Lemma fetch_similar_run s named :
  resolved (playlist_ids (obj s)) named ->
  exists s1 outs, lookup_run s named s1 outs
    /\ fetch_similar_playlists s
       = (with_obj (set_similar (concat (map ok_results outs))) s1, Ok tt)
    /\ obj s1 = obj s
    /\ trace s1 = (trace s ++ map (fun pt => CallSearch (snd pt)) named)%list
    /\ log s1 = (log s ++ failure_log named outs)%list.
Proof.
  intros [Hps Hn]. unfold fetch_similar_playlists, get_self, gets, bind at 1. cbn beta.
  rewrite Hps. unfold bind. rewrite fetch_loop_fold by exact Hn.
  destruct (fetch_fold_run named [] s) as (s1 & outs & Hrun & -> & Hobj & Htr & Hlog).
  exists s1, outs. auto.
Qed.

(** ** Frames: one search per element, the object untouched until the end *)

Lemma call_similar_api_frame t : within frame 1 (call_similar_playlists_api t).
Proof. unfold call_similar_playlists_api. frame_auto. Qed.

#[local] Hint Resolve call_similar_api_frame : itemlist.

(** Each element costs at most one search, whether its iteration succeeds,
    fails before the search or is handled. *)
Lemma fetch_loop_frame ps acc : within frame (length ps) (fetch_loop ps acc).
Proof. revert acc. induction ps as [|x ps IH]; intros acc; cbn [fetch_loop]; frame_auto. Qed.

(** The similarity phase issues at most one search per element of
    [playlist_ids], changes only [similar_playlists], and changes nothing
    when it raises. *)
Lemma fetch_similar_playlists_frame s s' r :
  fetch_similar_playlists s = (s', r) ->
  (exists l, trace s' = (trace s ++ l)%list /\ length l <= length (playlist_ids (obj s)))
  /\ playlist_ids (obj s') = playlist_ids (obj s)
  /\ video_ids (obj s') = video_ids (obj s)
  /\ (forall e, r = Err e -> obj s' = obj s).
Proof.
  unfold fetch_similar_playlists. py_unfold. py_step.
  destruct (fetch_loop (playlist_ids (obj s)) [] s) as [s1 r1] eqn:H.
  use_frame H (fetch_loop (playlist_ids (obj s)) []) s (fetch_loop_frame (playlist_ids (obj s)) []).
  destruct r1; py_step; intros [= <- <-]; simpl; rewrite Fo; eauto 6.
  repeat split; eauto; intros ? [=].
Qed.

(** ** Properties *)

(** C18: on resolved playlists, [fetch_similar_playlists] refines the
    spec's design: a fold over the playlists whose step runs one look-up and
    catches, logs and skips its own failure, followed by the assignment of
    the accumulator. *)
Theorem fetch_similar_playlists_refines s named :
  resolved (playlist_ids (obj s)) named ->
  fetch_similar_playlists s
  = (let '(s1, r) := fetch_fold named [] s in
     match r with
     | Ok sims => (with_obj (set_similar sims) s1, Ok tt)
     | Err e => (s1, Err e)
     end).
Proof.
  intros [Hps Hn]. unfold fetch_similar_playlists, get_self, gets, bind at 1. cbn beta.
  rewrite Hps. unfold bind. rewrite fetch_loop_fold by exact Hn.
  destruct (fetch_fold named [] s) as [s1 [sims|e]]; reflexivity.
Qed.

(** C19: on resolved playlists, [fetch_similar_playlists] never raises; it
    issues exactly one search per playlist, in order, with the playlist's
    title as query; [similar_playlists] becomes the concatenation of the
    results of the successful look-ups, in order; and each failed look-up
    adds exactly one log line, naming its playlist. *)
Theorem fetch_similar_playlists_spec s named :
  resolved (playlist_ids (obj s)) named ->
  exists s1 outs, lookup_run s named s1 outs
    /\ fetch_similar_playlists s
       = (with_obj (set_similar (concat (map ok_results outs))) s1, Ok tt)
    /\ trace s1 = (trace s ++ map (fun pt => CallSearch (snd pt)) named)%list
    /\ log s1 = (log s ++ failure_log named outs)%list.
Proof.
  intros Hr. destruct (fetch_similar_run s named Hr) as (s1 & outs & H & ?).
  exists s1, outs. intuition.
Qed.

(** C20: an element of [playlist_ids] that is not a resolved playlist (a
    bare id string) makes the handler's own [playlist.playlist_id] raise
    [AttributeError], which escapes the loop: the isolation of failures
    holds only for resolved playlists. *)
Theorem fetch_similar_playlists_unresolved s x rest :
  playlist_ids (obj s) = PStr x :: rest ->
  fetch_similar_playlists s = (s, Err (AttributeError "playlist_id")).
Proof.
  intros H. unfold fetch_similar_playlists. py_unfold. py_step. rewrite H. py_step.
  destruct s; reflexivity.
Qed.
End Similar.

(** ** Runs on the scripted backend *)

#[local] Existing Instance scripted_kinds.
#[local] Existing Instance scripted_backend.

Definition demo_playlist (id title : string) : Playlist :=
  {| playlist_id := id; pl_custom_speed := None; pl_start_range := None;
     pl_end_range := None; pl_youtube_api := Some "KEY";
     playlist_name := Some (JStr title); playlist_creator := Some (JStr "ch");
     pl_stats := Some 0 |}.

Definition demo_named : list (Playlist * json) :=
  [(demo_playlist "P1" "one", JStr "one"); (demo_playlist "P2" "two", JStr "two");
   (demo_playlist "P3" "three", JStr "three")].

Definition demo_hit (id : string) : json :=
  JObj [("id", JObj [("playlistId", JStr id)]);
        ("snippet", JObj [("title", JStr ("t" ++ id)); ("channelTitle", JStr "c")])].

(** Three resolved playlists; the network answers the first and the third
    search and fails on the second. *)
Definition demo_search_state : St :=
  mkSt (mkItemList "" None None None (Some "KEY")
                   (map (fun pt => PPlaylist (fst pt)) demo_named) [] [])
       [Ok (JObj [("items", JArr [demo_hit "S1"])]);
        Err (ExternalError "timeout");
        Ok (JObj [("items", JArr [demo_hit "S3a"; demo_hit "S3b"])])]
       [] [].

Lemma demo_resolved : resolved (playlist_ids (obj demo_search_state)) demo_named.
Proof. split; [reflexivity | repeat constructor]. Defined.

Lemma fetch_similar_playlists_refines_witness :
  fetch_similar_playlists demo_search_state
  = (let '(s1, r) := fetch_fold demo_named [] demo_search_state in
     match r with
     | Ok sims => (with_obj (set_similar sims) s1, Ok tt)
     | Err e => (s1, Err e)
     end).
Proof. exact (fetch_similar_playlists_refines demo_search_state demo_named demo_resolved). Defined.

Lemma fetch_similar_playlists_spec_witness :
  exists s1 outs, lookup_run demo_search_state demo_named s1 outs
    /\ fetch_similar_playlists demo_search_state
       = (with_obj (set_similar (concat (map ok_results outs))) s1, Ok tt)
    /\ trace s1 = (trace demo_search_state ++ map (fun pt => CallSearch (snd pt)) demo_named)%list
    /\ log s1 = (log demo_search_state ++ failure_log demo_named outs)%list.
Proof. exact (fetch_similar_playlists_spec demo_search_state demo_named demo_resolved). Defined.

Lemma fetch_similar_playlists_unresolved_witness :
  let s := mkSt (mkItemList "" None None None None [PStr "PL1"] [] []) [] [] [] in
  fetch_similar_playlists s = (s, Err (AttributeError "playlist_id")).
Proof. intros s. apply (fetch_similar_playlists_unresolved s "PL1" []). reflexivity. Defined.

