(* ===== verification/OutputAssembler.v ===== *)
(** * OutputAssembler: [get_output_string] ([src/src/itemlist.py], lines 152-172)

    With no playlist and no video the method returns
    [[["No valid playlist or video IDs found in input."]]]: a list whose one
    element is itself a list.  Otherwise it returns, in order, each
    playlist's [get_output_string()], each video's, and, when the similarity
    accumulator is not empty, the header ["\nSimilar Playlists:"] and one
    formatted line per record.  The elements of the result are [out_elem]:
    a string, or the nested list of the empty case. *)

From Stdlib Require Import String Ascii List ZArith QArith Bool.
From S2P Require Import Prelude PyJson Entities.
Import ListNotations.
Local Open Scope nat_scope.
Local Open Scope string_scope.

Inductive out_elem : Type :=
| OText (s : string)
| OLines (ls : list string).

Definition no_results_message : string := "No valid playlist or video IDs found in input.".

(** ["\nSimilar Playlists:"] *)
Definition similar_header : string := String "010"%char "Similar Playlists:".

Section Output.
Context {K : EntityKinds} {B : Backend}.

(** [item.get_output_string()] for an element of [playlist_ids] or
    [video_ids]: entities answer, a bare id string has no such method. *)
Definition render (x : pyobj) : result out_elem exn :=
  match x with
  | PPlaylist p => Ok (OText (playlist_output p))
  | PVideo v => Ok (OText (video_output v))
  | PStr _ => Err (AttributeError "get_output_string")
  end.

Fixpoint render_all (xs : list pyobj) : result (list out_elem) exn :=
  match xs with
  | [] => Ok []
  | x :: xs' =>
      match render x with
      | Err e => Err e
      | Ok r => match render_all xs' with
                | Err e => Err e
                | Ok rs => Ok (r :: rs)
                end
      end
  end.

(** [f"ID: {playlist['id']}, Title: {playlist['title']}, Channel: {playlist['channel']}"] *)
Definition similar_line (r : similar) : string :=
  "ID: " ++ py_str (sim_id r) ++ ", Title: " ++ py_str (sim_title r)
  ++ ", Channel: " ++ py_str (sim_channel r).

Definition similar_section (sims : list similar) : list out_elem :=
  match sims with
  | [] => []
  | _ => OText similar_header :: map (fun r => OText (similar_line r)) sims
  end.

Definition get_output_string (o : ItemList) : result (list out_elem) exn :=
  match playlist_ids o, video_ids o with
  | [], [] => Ok [OLines [no_results_message]]
  | _, _ =>
      match render_all (playlist_ids o) with
      | Err e => Err e
      | Ok ps =>
          match render_all (video_ids o) with
          | Err e => Err e
          | Ok vs => Ok (ps ++ vs ++ similar_section (similar_playlists o))%list
          end
      end
  end.

Lemma render_all_playlists ps :
  render_all (map PPlaylist ps) = Ok (map (fun p => OText (playlist_output p)) ps).
Proof. induction ps as [|p ps IH]; simpl; [reflexivity|]. now rewrite IH. Qed.

Lemma render_all_videos vs :
  render_all (map PVideo vs) = Ok (map (fun v => OText (video_output v)) vs).
Proof. induction vs as [|v vs IH]; simpl; [reflexivity|]. now rewrite IH. Qed.

(** C21: with no playlist and no video, the report is one element, and that
    element is the nested list [["No valid playlist or video IDs found in
    input."]], whatever the similarity accumulator holds. *)
Theorem get_output_string_no_results o :
  playlist_ids o = [] -> video_ids o = [] ->
  get_output_string o = Ok [OLines [no_results_message]].
Proof. intros Hp Hv. unfold get_output_string. now rewrite Hp, Hv. Qed.

(** C22: with resolved entities, the report is the playlists' outputs in
    resolution order, then the videos', then, only when the accumulator is
    not empty, the header and one ["ID: ..., Title: ..., Channel: ..."]
    line per record, in order. *)
Theorem get_output_string_resolved o ps vs :
  playlist_ids o = map PPlaylist ps -> video_ids o = map PVideo vs ->
  ps <> [] \/ vs <> [] ->
  get_output_string o
  = Ok (map (fun p => OText (playlist_output p)) ps
        ++ map (fun v => OText (video_output v)) vs
        ++ match similar_playlists o with
           | [] => []
           | sims => OText similar_header :: map (fun r => OText (similar_line r)) sims
           end)%list.
Proof.
  intros Hp Hv Hne. unfold get_output_string.
  rewrite Hp, Hv, render_all_playlists, render_all_videos.
  destruct ps, vs; [destruct Hne; congruence | | |];
    unfold similar_section; destruct (similar_playlists o); reflexivity.
Qed.
End Output.

#[local] Existing Instance scripted_kinds.
#[local] Existing Instance scripted_backend.

Lemma get_output_string_no_results_witness :
  get_output_string (mkItemList "x" None None None None [] [] [mkSimilar JNull JNull JNull])
  = Ok [OLines [no_results_message]].
Proof. apply get_output_string_no_results; reflexivity. Defined.

Definition out_demo_playlist : Playlist :=
  {| playlist_id := "P1"; pl_custom_speed := None; pl_start_range := None;
     pl_end_range := None; pl_youtube_api := None;
     playlist_name := Some (JStr "one"); playlist_creator := None; pl_stats := Some 0 |}.

Definition out_demo_obj : ItemList :=
  mkItemList "" None None None None [PPlaylist out_demo_playlist] []
             [mkSimilar (JStr "S1") (JStr "t") (JStr "c")].

Lemma get_output_string_resolved_witness :
  get_output_string out_demo_obj
  = Ok [OText "P1"; OText similar_header; OText "ID: S1, Title: t, Channel: c"].
Proof.
  rewrite (get_output_string_resolved out_demo_obj [out_demo_playlist] []);
    [reflexivity | reflexivity | reflexivity | left; discriminate].
Defined.
