(* ===== verification/Pipeline.v ===== *)
(** * The [ItemList] object: [__init__] and [do_async_work]
    ([src/src/itemlist.py], lines 13-32)

    [__init__] stores its five arguments and the two id lists of
    [get_item_ids] (bare strings) and empties the similarity accumulator.
    [do_async_work] awaits the three phases in order: the playlist phase,
    the video phase and the similarity look-up; an exception of a phase
    escapes and the later phases do not run.  This file composes the phases
    of [MetadataResolver] and [SimilarFinder] and proves what the
    composition guarantees: the ids [__init__] stores are strings without
    duplicates, a successful playlist phase leaves resolved playlists so
    that the look-up never raises, and an error of the first two phases
    ends the run before any search is issued. *)

From Stdlib Require Import String Ascii List ZArith QArith Lia.
From stdpp Require Import base list.
From S2P Require Import Prelude LinkClassifier IdentifierSet PyJson Entities.
From S2P Require Import MetadataResolver SimilarFinder OutputAssembler.
Import ListNotations.
Local Open Scope string_scope.
Local Open Scope py_scope.

Section Pipeline.
Context {K : EntityKinds} {B : Backend}.

(** [ItemList(input_string, start_range, end_range, custom_speed,
    youtube_api)]: lines 21-27. *)
Definition init_item_list (input_string : string) (start_range end_range : option Z)
  (custom_speed : option Q) (youtube_api : option string) : ItemList :=
  let '(playlists, videos) := get_item_ids input_string in
  {| Entities.input_string := input_string; Entities.start_range := start_range;
     Entities.end_range := end_range; Entities.custom_speed := custom_speed;
     Entities.youtube_api := youtube_api;
     playlist_ids := map PStr playlists; video_ids := map PStr videos;
     similar_playlists := [] |}.

(** [async def do_async_work(self)]: lines 29-32. *)
Definition do_async_work : M unit :=
  let* _ := populate_playlist_names in
  let* _ := populate_video_names in
  fetch_similar_playlists.

(** ** Lemmas on the phases *)

(** The [except KeyError] handler of the playlist phase always raises. *)
Lemma playlist_error_handler_raises results e s :
  exists s' e', playlist_error_handler results e s = (s', Err e').
Proof.
  unfold playlist_error_handler. destruct (is_key_error e); py_unfold; py_step;
    [destruct (getitem2 results "error" "message"); py_step|]; eauto.
Qed.

(** The entities of a successful playlist loop all carry their name. *)
Lemma built_list_named o k pairs ps :
  built_list o k pairs ps -> Forall (fun p => exists t, playlist_name p = Some t) ps.
Proof.
  revert k ps. induction pairs as [|[id data] pairs IH]; intros k [|p ps] Hb;
    simpl in Hb; try contradiction; constructor.
  - destruct Hb as ((_ & _ & _ & _ & _ & (t & Ht & _) & _) & _). eauto.
  - eapply IH, Hb.
Qed.

Lemma resolved_of_named ps :
  Forall (fun p => exists t, playlist_name p = Some t) ps ->
  exists named, resolved (map PPlaylist ps) named.
Proof.
  induction 1 as [|p ps [t Ht] _ [named [Hm Hn]]].
  - exists []. split; [reflexivity | constructor].
  - exists ((p, t) :: named). split; [simpl; now f_equal | now constructor].
Qed.

(** A playlist phase that returns normally leaves resolved playlists and
    does not touch the video ids or the accumulator. *)
Lemma populate_playlist_names_ok s s1 :
  populate_playlist_names s = (s1, Ok tt) ->
  (exists named, resolved (playlist_ids (obj s1)) named)
  /\ video_ids (obj s1) = video_ids (obj s)
  /\ similar_playlists (obj s1) = similar_playlists (obj s).
Proof.
  unfold populate_playlist_names. py_unfold. py_step.
  destruct (call_youtube_api _ _ _ _) as [w1 [r|e]]; py_step; [|discriminate].
  set (s0 := {| obj := obj s; wld := w1; log := log s; trace := _ |}).
  destruct (getitem r "items") as [items|e] eqn:Ei; py_step.
  2: { destruct (playlist_error_handler_raises r e s0) as (s' & e' & ->). discriminate. }
  destruct (py_len items) as [n|e]; py_step.
  2: { destruct (playlist_error_handler_raises r e s0) as (s' & e' & ->). discriminate. }
  destruct (Nat.eqb n 0); py_step.
  - intros [= <-]. split; [exists []; split; [reflexivity | constructor]|]. auto.
  - destruct (py_iter items) as [xs|e]; py_step; [|discriminate].
    destruct (resolve_playlists _ [] _) as [s2 [ps|e]] eqn:Er; [|discriminate].
    intros [= <-]. apply resolve_playlists_spec in Er as (fresh & -> & Hobj & _ & _ & Hb).
    simpl. rewrite Hobj. split; [eapply resolved_of_named, built_list_named; exact Hb | split; reflexivity].
Qed.

(** A video phase that returns normally makes one call and changes only
    [video_ids]. *)
Lemma populate_video_names_ok s s2 :
  populate_video_names s = (s2, Ok tt) ->
  playlist_ids (obj s2) = playlist_ids (obj s)
  /\ similar_playlists (obj s2) = similar_playlists (obj s)
  /\ log s2 = log s
  /\ trace s2 = (trace s ++ [CallBatch "videos" (video_ids (obj s))])%list
  /\ (exists vs, video_ids (obj s2) = map PVideo vs).
Proof.
  unfold populate_video_names. py_unfold. py_step.
  destruct (call_youtube_api _ _ _ _) as [w1 [r|e]]; py_step; [|discriminate].
  destruct (getitem r "items") as [items|e]; py_step; [|discriminate].
  destruct (py_iter items) as [xs|e]; py_step; [|discriminate].
  destruct (resolve_videos _ _) as [vs|e]; py_step; [|discriminate].
  intros [= <-]. eauto 10.
Qed.

(** No line of type [t]: no id of type [t]. *)
Lemma dict_fromkeys_ids_nil t lines :
  Forall (fun line => snd (get_id line) <> t) lines -> dict_fromkeys (ids_of t lines) = [].
Proof.
  intros Hall. destruct (dict_fromkeys (ids_of t lines)) as [|x xs] eqn:E; [reflexivity|].
  assert (Hx : x ∈ dict_fromkeys (ids_of t lines)) by (rewrite E; left).
  apply elem_of_dict_fromkeys, elem_of_ids_of in Hx as (line & Hin & Hg).
  rewrite Forall_forall in Hall.
  destruct (Hall line Hin). now rewrite Hg.
Qed.

Lemma render_all_strings l :
  render_all (map PStr l) = match l with
                            | [] => Ok []
                            | _ => Err (AttributeError "get_output_string")
                            end.
Proof. destruct l; reflexivity. Qed.

(** ** Properties of the object *)

(** C23: [__init__] stores in [playlist_ids] and [video_ids] bare strings,
    without duplicates, that are exactly the ids some line of the input
    classifies to as a playlist (a video); the accumulator starts empty. *)
Theorem init_item_list_ids input_string sr er cs api :
  let o := init_item_list input_string sr er cs api in
  exists ps vs,
    playlist_ids o = map PStr ps /\ video_ids o = map PStr vs
    /\ NoDup ps /\ NoDup vs
    /\ (forall id, id ∈ ps <->
          exists line, line ∈ split_newline input_string /\ get_id line = (id, LinkClassifier.Playlist))
    /\ (forall id, id ∈ vs <->
          exists line, line ∈ split_newline input_string /\ get_id line = (id, LinkClassifier.Video))
    /\ similar_playlists o = [].
Proof.
  intros o. unfold o, init_item_list, get_item_ids. rewrite fold_bucket. simpl.
  eexists _, _. do 2 (split; [reflexivity|]). do 2 (split; [auto with itemlist|]).
  split; [|split; [|reflexivity]]; intros id;
    now rewrite elem_of_dict_fromkeys, elem_of_ids_of.
Qed.

(** C24: when the playlist and the video phases return normally, the
    similarity phase does too: the playlists are resolved, [do_async_work]
    returns normally after one search per playlist, issued in order after
    the video batch with the playlist's title as query; the accumulator is
    the concatenation of the successful look-ups and each failure adds one
    log line. *)
Theorem do_async_work_completes s s1 s2 :
  populate_playlist_names s = (s1, Ok tt) ->
  populate_video_names s1 = (s2, Ok tt) ->
  exists named s3 outs,
    resolved (playlist_ids (obj s1)) named
    /\ lookup_run s2 named s3 outs
    /\ do_async_work s = (with_obj (set_similar (concat (map ok_results outs))) s3, Ok tt)
    /\ trace s3 = (trace s1 ++ CallBatch "videos" (video_ids (obj s1))
                              :: map (fun pt => CallSearch (snd pt)) named)%list
    /\ log s3 = (log s1 ++ failure_log named outs)%list.
Proof.
  intros H1 H2. destruct (populate_playlist_names_ok _ _ H1) as ([named Hr] & _).
  destruct (populate_video_names_ok _ _ H2) as (Hp & _ & Hlog & Htr & _).
  rewrite <- Hp in Hr.
  destruct (fetch_similar_run s2 named Hr) as (s3 & outs & Hrun & Hf & _ & Htr3 & Hlog3).
  exists named, s3, outs. rewrite Hp in Hr. split; [exact Hr|]. split; [exact Hrun|].
  split; [unfold do_async_work, bind; now rewrite H1, H2|].
  rewrite Htr3, Hlog3, Htr, Hlog, <- app_assoc. split; reflexivity.
Qed.

(** C25: an error payload from the playlist batch ends [do_async_work]
    with [Exception(results["error"]["message"])] after that one call: no
    video batch and no search is issued, and the object is unchanged. *)
Theorem do_async_work_api_error s w1 r msg :
  call_youtube_api "playlists" (youtube_api (obj s)) (playlist_ids (obj s)) (wld s) = (w1, Ok r) ->
  getitem r "items" = Err (KeyError "items") ->
  getitem2 r "error" "message" = Ok msg ->
  exists s', do_async_work s = (s', Err (PyException msg))
    /\ obj s' = obj s
    /\ trace s' = (trace s ++ [CallBatch "playlists" (playlist_ids (obj s))])%list.
Proof.
  intros H1 H2 H3. unfold do_async_work, populate_playlist_names, playlist_error_handler.
  py_run. eauto.
Qed.

(** C26: after a successful playlist phase, a video batch without
    ["items"] makes [KeyError('items')] escape [do_async_work]: no search is
    issued and [similar_playlists] keeps the value it had before the run. *)
Theorem do_async_work_video_error s s1 w2 r :
  populate_playlist_names s = (s1, Ok tt) ->
  call_youtube_api "videos" (youtube_api (obj s1)) (video_ids (obj s1)) (wld s1) = (w2, Ok r) ->
  getitem r "items" = Err (KeyError "items") ->
  exists s', do_async_work s = (s', Err (KeyError "items"))
    /\ similar_playlists (obj s') = similar_playlists (obj s)
    /\ trace s' = (trace s1 ++ [CallBatch "videos" (video_ids (obj s1))])%list.
Proof.
  intros H1 H2 H3. destruct (populate_playlist_names_ok _ _ H1) as (_ & _ & Hsim).
  unfold do_async_work. rewrite (bind_ok _ _ _ _ _ H1).
  unfold populate_video_names. py_run. eauto.
Qed.

(** C31: whatever its outcome, a run of [do_async_work] issues at most
    [2 + 2 n] external calls, [n] the number of requested playlist ids: one
    batch per resolution phase, at most one [do_async_work] per id and at
    most one search per resolved playlist. *)
Theorem do_async_work_calls_bound s s' r :
  do_async_work s = (s', r) ->
  exists l, trace s' = (trace s ++ l)%list /\ length l <= 2 + 2 * length (playlist_ids (obj s)).
Proof.
  unfold do_async_work, bind.
  destruct (populate_playlist_names s) as [s1 r1] eqn:H1.
  destruct (populate_playlist_names_frame _ _ _ H1) as ((l1 & Ht1 & Hl1) & Hn1 & _).
  destruct r1 as [[]|e]; [|intros [= <- _]; exists l1; split; [exact Ht1 | lia]].
  destruct (populate_video_names s1) as [s2 r2] eqn:H2.
  destruct (populate_video_names_frame _ _ _ H2) as ((l2 & Ht2 & Hl2) & Hp2 & _).
  destruct r2 as [[]|e].
  - intros H3. destruct (fetch_similar_playlists_frame _ _ _ H3) as ((l3 & Ht3 & Hl3) & _).
    rewrite Hp2 in Hl3. exists (l1 ++ l2 ++ l3)%list.
    rewrite Ht3, Ht2, Ht1, !app_assoc, !length_app. split; [reflexivity | lia].
  - intros [= <- _]. exists (l1 ++ l2)%list.
    rewrite Ht2, Ht1, app_assoc, length_app. split; [reflexivity | lia].
Qed.

(** C27: the report is valid only after [do_async_work]: on a fresh object
    whose input has a valid line, [get_output_string] raises
    [AttributeError], a bare id string having no [get_output_string]. *)
Theorem report_before_run input_string sr er cs api :
  Exists (fun line => snd (get_id line) <> Invalid) (split_newline input_string) ->
  get_output_string (init_item_list input_string sr er cs api)
  = Err (AttributeError "get_output_string").
Proof.
  intros (line & Hin & Ht)%Exists_exists.
  unfold init_item_list, get_item_ids. rewrite fold_bucket. cbn [app fst snd].
  destruct (get_id line) as [id t] eqn:Eg. simpl in Ht.
  assert (Hmem : id ∈ dict_fromkeys (ids_of LinkClassifier.Playlist (split_newline input_string))
                 \/ id ∈ dict_fromkeys (ids_of LinkClassifier.Video (split_newline input_string))).
  { destruct t; [left | right | congruence];
      apply elem_of_dict_fromkeys, elem_of_ids_of; eauto. }
  unfold get_output_string. simpl. rewrite !render_all_strings.
  destruct (dict_fromkeys (ids_of LinkClassifier.Playlist _)), (dict_fromkeys (ids_of LinkClassifier.Video _));
    try reflexivity.
  destruct Hmem as [H|H]; now apply not_elem_of_nil in H.
Qed.

(** C28: when no line of the input is valid, the fresh object's report is
    the no-results element [["No valid playlist or video IDs found in
    input."]]. *)
Theorem report_no_valid_input input_string sr er cs api :
  Forall (fun line => snd (get_id line) = Invalid) (split_newline input_string) ->
  get_output_string (init_item_list input_string sr er cs api)
  = Ok [OLines [no_results_message]].
Proof.
  intros Hall. unfold init_item_list, get_item_ids. rewrite fold_bucket. cbn [app fst snd].
  assert (Hnot : forall t, t <> Invalid ->
                   Forall (fun line => snd (get_id line) <> t) (split_newline input_string))
    by (intros t Ht; eapply Forall_impl; [exact Hall | now intros line ->]).
  rewrite !dict_fromkeys_ids_nil by (apply Hnot; discriminate). reflexivity.
Qed.
End Pipeline.

(** ** Runs on the scripted backend *)

#[local] Existing Instance scripted_kinds.
#[local] Existing Instance scripted_backend.

(** A video link, then a playlist link. *)
Definition pipeline_input : string :=
  "https://www.youtube.com/watch?v=abc123" ++ String "010"%char
  "https://www.youtube.com/playlist?list=PL1".

Definition pipeline_obj : ItemList := init_item_list pipeline_input None None None (Some "KEY").

Definition pipeline_state (video_answer : result json exn) : St :=
  mkSt pipeline_obj
       [Ok (JObj [("items", JArr [demo_item "Mix" "Chan"])]);
        video_answer;
        Ok (JObj [("items", JArr [demo_hit "S1"])])]
       [] [].

Definition video_items : result json exn := Ok (JObj [("items", JArr [JObj [("id", JStr "abc123")]])]).

Definition error_payload : json := JObj [("error", JObj [("message", JStr "quota")])].

Lemma init_item_list_ids_witness :
  exists ps vs,
    playlist_ids pipeline_obj = map PStr ps /\ video_ids pipeline_obj = map PStr vs
    /\ NoDup ps /\ NoDup vs
    /\ (forall id, id ∈ ps <->
          exists line, line ∈ split_newline pipeline_input
                       /\ get_id line = (id, LinkClassifier.Playlist))
    /\ (forall id, id ∈ vs <->
          exists line, line ∈ split_newline pipeline_input
                       /\ get_id line = (id, LinkClassifier.Video))
    /\ similar_playlists pipeline_obj = [].
Proof. exact (init_item_list_ids pipeline_input None None None (Some "KEY")). Defined.

Lemma do_async_work_completes_witness :
  let s := pipeline_state video_items in
  let s1 := fst (populate_playlist_names s) in
  let s2 := fst (populate_video_names s1) in
  exists named s3 outs,
    resolved (playlist_ids (obj s1)) named
    /\ lookup_run s2 named s3 outs
    /\ do_async_work s = (with_obj (set_similar (concat (map ok_results outs))) s3, Ok tt)
    /\ trace s3 = (trace s1 ++ CallBatch "videos" (video_ids (obj s1))
                              :: map (fun pt => CallSearch (snd pt)) named)%list
    /\ log s3 = (log s1 ++ failure_log named outs)%list.
Proof.
  intros s s1 s2.
  apply (@do_async_work_completes _ scripted_backend s s1 s2); vm_compute; reflexivity.
Defined.

Lemma do_async_work_api_error_witness :
  let s := mkSt pipeline_obj [Ok error_payload] [] [] in
  exists s', do_async_work s = (s', Err (PyException (JStr "quota")))
    /\ obj s' = obj s
    /\ trace s' = (trace s ++ [CallBatch "playlists" (playlist_ids (obj s))])%list.
Proof.
  intros s.
  apply (@do_async_work_api_error _ scripted_backend s [] error_payload);
    vm_compute; reflexivity.
Defined.

Lemma do_async_work_video_error_witness :
  let s := pipeline_state (Ok error_payload) in
  let s1 := fst (populate_playlist_names s) in
  exists s', do_async_work s = (s', Err (KeyError "items"))
    /\ similar_playlists (obj s') = similar_playlists (obj s)
    /\ trace s' = (trace s1 ++ [CallBatch "videos" (video_ids (obj s1))])%list.
Proof.
  intros s s1.
  apply (@do_async_work_video_error _ scripted_backend s s1 (tl (wld s1)) error_payload);
    vm_compute; reflexivity.
Defined.

Lemma do_async_work_calls_bound_witness :
  let s := pipeline_state video_items in
  exists l, trace (fst (do_async_work s)) = (trace s ++ l)%list
    /\ length l <= 2 + 2 * length (playlist_ids (obj s)).
Proof.
  intros s. apply (@do_async_work_calls_bound _ scripted_backend s _ (snd (do_async_work s))).
  apply surjective_pairing.
Defined.

Lemma report_before_run_witness :
  get_output_string pipeline_obj = Err (AttributeError "get_output_string").
Proof.
  refine (report_before_run pipeline_input None None None (Some "KEY") _).
  assert (E : split_newline pipeline_input
              = ["https://www.youtube.com/watch?v=abc123";
                 "https://www.youtube.com/playlist?list=PL1"]) by (vm_compute; reflexivity).
  rewrite E. apply Exists_cons_hd. vm_compute. discriminate.
Defined.

Lemma report_no_valid_input_witness :
  get_output_string (init_item_list ("not a link" ++ String "010"%char "  ") None None None None)
  = Ok [OLines [no_results_message]].
Proof.
  refine (report_no_valid_input _ None None None None _).
  assert (E : split_newline ("not a link" ++ String "010"%char "  ") = ["not a link"; "  "])
    by (vm_compute; reflexivity).
  rewrite E. constructor; [vm_compute; reflexivity|].
  constructor; [vm_compute; reflexivity | constructor].
Defined.

