(* ===== verification/Lifecycle.v ===== *)
(** * The life cycle of an [ItemList] object ([src/src/itemlist.py], lines 29-32)

    [do_async_work] awaits three phases in order; between two awaits the
    object is in a well-defined phase.  This file states the run as a step
    relation on configurations [(phase, state)]: from [Fresh] (constructed)
    the playlist phase leads to [PlaylistsDone], the video phase to
    [VideosDone], the similarity phase to [Done]; an exception of a phase
    leads to [Failed e].  Every run of [do_async_work] is such a chain of
    steps ([do_async_work_chain]).  By induction on the steps from a freshly
    constructed object the file shows what the id lists hold in every
    phase: each list is assigned whole, an exception never leaves a partly
    resolved list, and the report of a completed run never fails. *)

From Stdlib Require Import String List Relations.
From S2P Require Import Prelude PyJson Entities MetadataResolver SimilarFinder.
From S2P Require Import IdentifierSet OutputAssembler Pipeline.
Import ListNotations.
Local Open Scope string_scope.

Inductive phase : Type :=
| Fresh                (** constructed, [do_async_work] not yet awaited *)
| PlaylistsDone        (** line 30 returned *)
| VideosDone           (** line 31 returned *)
| Done                 (** line 32 returned: [do_async_work] returned *)
| Failed (e : exn).    (** an awaited phase raised [e] *)

Section Lifecycle.
Context {K : EntityKinds} {B : Backend}.

Definition config : Type := phase * St.

(** The statement awaited next in each phase. *)
Definition phase_action (p : phase) : option (M unit) :=
  match p with
  | Fresh => Some populate_playlist_names
  | PlaylistsDone => Some populate_video_names
  | VideosDone => Some fetch_similar_playlists
  | Done | Failed _ => None
  end.

Definition next_phase (p : phase) : phase :=
  match p with
  | Fresh => PlaylistsDone
  | PlaylistsDone => VideosDone
  | VideosDone => Done
  | q => q
  end.

(** The phase reached when the awaited statement returns [r]. *)
Definition after (p : phase) (r : result unit exn) : phase :=
  match r with
  | Ok _ => next_phase p
  | Err e => Failed e
  end.

Inductive step : config -> config -> Prop :=
| step_await p m s s' r :
    phase_action p = Some m -> m s = (s', r) -> step (p, s) (after p r, s').

Definition steps : config -> config -> Prop := clos_refl_trans config step.

(** How [do_async_work] ends. *)
Definition outcome (r : result unit exn) : phase := after VideosDone r.

(** [do_async_work] as a chain of steps. *)
Lemma do_async_work_chain s s' r :
  do_async_work s = (s', r) -> steps (Fresh, s) (outcome r, s').
Proof.
  unfold do_async_work, bind, steps.
  destruct (populate_playlist_names s) as [s1 [[]|e]] eqn:H1;
    [|intros [= <- <-]; apply rt_step; now apply (step_await Fresh populate_playlist_names s s1 (Err e))].
  destruct (populate_video_names s1) as [s2 [[]|e]] eqn:H2.
  - intros H3. eapply rt_trans; [apply rt_step; now apply (step_await Fresh populate_playlist_names s s1 (Ok tt))|].
    eapply rt_trans; [apply rt_step; now apply (step_await PlaylistsDone populate_video_names s1 s2 (Ok tt))|].
    apply rt_step. now apply (step_await VideosDone fetch_similar_playlists s2 s').
  - intros [= <- <-]. eapply rt_trans; [apply rt_step; now apply (step_await Fresh populate_playlist_names s s1 (Ok tt))|].
    apply rt_step. now apply (step_await PlaylistsDone populate_video_names s1 s2 (Err e)).
Qed.

(** ** What the id lists hold in each phase *)

Definition strs (l : list pyobj) : Prop := Forall (fun x => exists id, x = PStr id) l.

Definition entities (l : list pyobj) : Prop := exists named, resolved l named.

Definition videos (l : list pyobj) : Prop := exists vs, l = map PVideo vs.

Definition phase_inv (c : config) : Prop :=
  let '(p, s) := c in
  let o := obj s in
  match p with
  | Fresh => strs (playlist_ids o) /\ strs (video_ids o) /\ similar_playlists o = []
  | PlaylistsDone => entities (playlist_ids o) /\ strs (video_ids o) /\ similar_playlists o = []
  | VideosDone => entities (playlist_ids o) /\ videos (video_ids o) /\ similar_playlists o = []
  | Done => entities (playlist_ids o) /\ videos (video_ids o)
  | Failed _ => (strs (playlist_ids o) \/ entities (playlist_ids o))
                /\ (strs (video_ids o) \/ videos (video_ids o))
  end.

Lemma strs_map l : strs (map PStr l).
Proof. induction l; constructor; eauto. Qed.

Lemma init_phase_inv s0 input_string sr er cs api :
  obj s0 = init_item_list input_string sr er cs api -> phase_inv (Fresh, s0).
Proof.
  intros H0. simpl. rewrite H0. unfold init_item_list.
  destruct (get_item_ids input_string). simpl. auto using strs_map.
Qed.

(** Each await keeps the invariant: a phase that returns assigns its list
    whole, a phase that raises leaves the object as it was. *)
Lemma step_phase_inv c c' : phase_inv c -> step c c' -> phase_inv c'.
Proof.
  intros Hi Hs. revert Hi. destruct Hs as [p m s s' r Hm Hr].
  destruct p; simpl in Hm; try discriminate; injection Hm as <-;
    destruct r as [[]|e]; simpl; intros (Hp & Hv & Hsim).
  - destruct (populate_playlist_names_ok _ _ Hr) as (Hn & -> & ->). auto.
  - destruct (populate_playlist_names_frame _ _ _ Hr) as (_ & _ & Ho). rewrite (Ho e eq_refl). auto.
  - destruct (populate_video_names_ok _ _ Hr) as (-> & -> & _ & _ & Hv'). auto.
  - destruct (populate_video_names_frame _ _ _ Hr) as (_ & _ & Ho). rewrite (Ho e eq_refl). auto.
  - destruct (fetch_similar_playlists_frame _ _ _ Hr) as (_ & -> & -> & _). auto.
  - destruct (fetch_similar_playlists_frame _ _ _ Hr) as (_ & _ & _ & Ho). rewrite (Ho e eq_refl). auto.
Qed.

Lemma steps_phase_inv c1 c2 : steps c1 c2 -> phase_inv c1 -> phase_inv c2.
Proof.
  induction 1 as [c c' Hs | c | c c' c'' _ IH1 _ IH2]; eauto using step_phase_inv.
Qed.
(** ** Properties of the life cycle *)

(** C29: along every run from a freshly constructed object, [playlist_ids]
    holds id strings until the playlist phase returns and resolved
    playlists from then on, [video_ids] id strings until the video phase
    returns and videos from then on, and [similar_playlists] stays empty
    until the similarity phase; after an exception each list holds one kind
    or the other, never a partly resolved list. *)
Theorem reachable_phase_inv s0 c input_string sr er cs api :
  obj s0 = init_item_list input_string sr er cs api -> steps (Fresh, s0) c -> phase_inv c.
Proof. intros H0 Hr. eapply steps_phase_inv; [exact Hr | eapply init_phase_inv, H0]. Qed.

(** C30: the report of a completed run never fails: when the run from a
    freshly constructed object reaches [Done], [get_output_string] returns
    the playlists' outputs, the videos' outputs and the similar section, or
    the no-results element when both lists are empty. *)
Theorem report_after_run s0 s input_string sr er cs api :
  obj s0 = init_item_list input_string sr er cs api -> steps (Fresh, s0) (Done, s) ->
  exists ps vs,
    playlist_ids (obj s) = map PPlaylist ps /\ video_ids (obj s) = map PVideo vs
    /\ get_output_string (obj s)
       = match ps, vs with
         | [], [] => Ok [OLines [no_results_message]]
         | _, _ => Ok (map (fun p => OText (playlist_output p)) ps
                      ++ map (fun v => OText (video_output v)) vs
                      ++ similar_section (similar_playlists (obj s)))%list
         end.
Proof.
  intros H0 Hr. pose proof (steps_phase_inv _ _ Hr (init_phase_inv _ _ _ _ _ _ H0))
    as ([named [Hp _]] & [vs Hv]).
  exists (map fst named), vs. rewrite map_map.
  split; [exact Hp|]. split; [exact Hv|].
  unfold get_output_string. rewrite Hp, Hv, <- (map_map fst PPlaylist).
  rewrite render_all_playlists, render_all_videos.
  destruct named, vs; reflexivity.
Qed.
End Lifecycle.

(** ** Runs on the scripted backend *)

#[local] Existing Instance scripted_kinds.
#[local] Existing Instance scripted_backend.

Lemma reachable_phase_inv_witness :
  let s0 := pipeline_state video_items in
  phase_inv (outcome (snd (do_async_work s0)), fst (do_async_work s0)).
Proof.
  intros s0.
  apply (@reachable_phase_inv _ scripted_backend s0 _ pipeline_input None None None (Some "KEY"));
    [reflexivity | apply do_async_work_chain; apply surjective_pairing].
Defined.

Lemma report_after_run_witness :
  let s0 := pipeline_state video_items in
  let s := fst (do_async_work s0) in
  exists ps vs,
    playlist_ids (obj s) = map PPlaylist ps /\ video_ids (obj s) = map PVideo vs
    /\ get_output_string (obj s)
       = match ps, vs with
         | [], [] => Ok [OLines [no_results_message]]
         | _, _ => Ok (map (fun p => OText (playlist_output p)) ps
                      ++ map (fun v => OText (video_output v)) vs
                      ++ similar_section (similar_playlists (obj s)))%list
         end.
Proof.
  intros s0 s.
  assert (E : do_async_work s0 = (s, Ok tt)) by (vm_compute; reflexivity).
  apply (@report_after_run _ scripted_backend s0 s pipeline_input None None None (Some "KEY"));
    [reflexivity | exact (do_async_work_chain _ _ _ E)].
Defined.
